(** * vae-seq: the independent-latent sequential VAE core

    A shallow embedding of [vae/independent_sequence.py] in its two
    variants (package [vae_seq] and package [vaeseq]): the orchestrator
    [IndependentSequence.infer_latents] and the two distribution cores
    [ObsDist] and [LatentPrior].

    Tensors are nested lists, outermost axis first: a [[B, T, F]] tensor
    is a list of [B] rows, each a list of [T] time steps, each a feature
    vector.  Building a TensorFlow graph is an effect: it can raise, it
    allocates distribution objects, and it calls sub-modules in program
    order; these are threaded through the monad [M]. *)

From Stdlib Require Import String List Arith Lia Bool.
Import ListNotations.
Local Open Scope string_scope.
Local Open Scope list_scope.

Set Implicit Arguments.
Set Warnings "-register-all".

(* ================================================================== *)
(** * Graph construction as an effect *)

(** Who is being called.  Every sub-module or collaborator invocation
    made by the code is recorded under one of these. *)
Inductive Callee :=
| ObsEncoder            (* self._obs_encoder *)
| ObsDecoder            (* self._obs_decoder *)
| ConcatFeatures        (* util.concat_features *)
| Core (name : string)  (* one step of a recurrent core made by util.make_rnn *)
| LatentDecoder         (* self._q_z *)
| LatentDecoderDist (name : string) (* self._q_z.dist(..., name) *)
| Sample                (* q_zs.sample() *)
| LatentPriorDist.      (* LatentPrior.dist *)

Inductive Event :=
| Call (c : Callee)
| NewMVN (name : string) (id : nat)  (* MultivariateNormalDiag(...) built *)
| CalcKL (prior_id : nat).           (* util.calc_kl against that prior *)

Inductive Error :=
| InvalidArgument (op : string).

Inductive Result (A : Type) :=
| Ok (a : A)
| Raise (e : Error).
Arguments Ok {A} a.
Arguments Raise {A} e.

Record Graph := mkGraph {
  next_id : nat;          (* next fresh object identity *)
  trace : list Event      (* calls made so far, oldest first *)
}.

Definition M (A : Type) : Type := Graph -> Result A * Graph.

Definition ret {A} (a : A) : M A := fun g => (Ok a, g).

Definition bind {A B} (m : M A) (k : A -> M B) : M B :=
  fun g => match m g with
           | (Ok a, g') => k a g'
           | (Raise e, g') => (Raise e, g')
           end.

Definition raise {A} (e : Error) : M A := fun g => (Raise e, g).

Definition lift {A} (r : Result A) : M A := fun g => (r, g).

Definition tell (ev : Event) : M unit :=
  fun g => (Ok tt, mkGraph (next_id g) (trace g ++ [ev])).

Definition fresh : M nat :=
  fun g => (Ok (next_id g), mkGraph (S (next_id g)) (trace g)).

Declare Scope graph_scope.
Delimit Scope graph_scope with graph.
Notation "x <- m ;; k" := (bind m (fun x => k))
  (at level 61, m at next level, right associativity) : graph_scope.
Notation "' pat <- m ;; k" := (bind m (fun x => match x with pat => k end))
  (at level 61, pat pattern, m at next level, right associativity) : graph_scope.
Notation "m ;;; k" := (bind m (fun _ => k))
  (at level 61, right associativity) : graph_scope.
Local Open Scope graph_scope.

(** Calling a collaborator whose body is a pure function of its inputs
    and captured weights: the call is recorded, the value returned. *)
Definition call {A B} (c : Callee) (f : A -> B) (a : A) : M B :=
  tell (Call c) ;;; ret (f a).

(** The events a computation adds to a graph. *)
Definition emitted (before after : Graph) : list Event :=
  skipn (length (trace before)) (trace after).

(* ================================================================== *)
(** * Nested structures ([snt.nest]) *)

Inductive Nest (A : Type) :=
| Leaf (a : A)
| Tuple (items : list (Nest A)).
Arguments Leaf {A} a.
Arguments Tuple {A} items.

(** [snt.nest.flatten]: the leaves, left to right. *)
Fixpoint flatten {A} (n : Nest A) : list A :=
  match n with
  | Leaf a => [a]
  | Tuple items => flat_map flatten items
  end.

(** Python's empty tuple [()]. *)
Definition unit_nest {A} : Nest A := Tuple [].

(* ================================================================== *)
(** * Tensors as nested lists *)

(** Scalars: only the constants [0.0] and [1.0] are ever computed by
    the code itself; everything else is done by collaborators. *)
Class Scalar (R : Type) := { zero : R; one : R }.

(** What the code needs from a tensor of any rank. *)
Class TensorLike (T : Type) := {
  concat_last : T -> T -> Result T;   (* tf.concat([a, b], axis=-1) *)
  zeros_like : T -> T;                (* tf.zeros_like *)
  ones_like : T -> T                  (* tf.ones_like *)
}.

Definition dim_error : Error :=
  InvalidArgument "ConcatOp: dimensions of inputs should match".

(** Concatenation below the outermost axis: both operands must have the
    same extent along that axis. *)
Fixpoint zip_concat {T} (cat : T -> T -> Result T) (xs ys : list T)
  : Result (list T) :=
  match xs, ys with
  | [], [] => Ok []
  | x :: xs', y :: ys' =>
      match cat x y with
      | Ok z => match zip_concat cat xs' ys' with
                | Ok zs => Ok (z :: zs)
                | Raise e => Raise e
                end
      | Raise e => Raise e
      end
  | _, _ => Raise dim_error
  end.

(** Rank 1: a feature vector; concatenation along the last axis is
    append and never fails. *)
#[export] Instance vec_tensor {R} `{Scalar R} : TensorLike (list R) := {
  concat_last u v := Ok (u ++ v);
  zeros_like v := map (fun _ => zero) v;
  ones_like v := map (fun _ => one) v
}.

(** Rank n+1 from rank n. *)
#[export] Instance dim_tensor {T} `{TensorLike T} : TensorLike (list T) := {
  concat_last := zip_concat concat_last;
  zeros_like := map zeros_like;
  ones_like := map ones_like
}.

(** Extent of the second axis; a tensor with no rows has no steps. *)
Definition time_steps {A} (x : list (list A)) : nat :=
  match x with
  | [] => 0
  | r :: _ => length r
  end.

(** The entries at position [i] of the second axis. *)
Definition column {A} (i : nat) (x : list (list A)) : list A :=
  flat_map (fun r => match nth_error r i with
                     | Some a => [a]
                     | None => []
                     end) x.

(** Swap the two leading axes of a tensor whose second axis has extent
    [n] ([_transpose_batch_time] inside [tf.nn.dynamic_rnn]). *)
Definition transpose {A} (n : nat) (x : list (list A)) : list (list A) :=
  map (fun i => column i x) (seq 0 n).

(** [tf.reshape(flat, [rows, cols] + ...)]. *)
Fixpoint reshape2 {A} (rows cols : nat) (flat : list A) : list (list A) :=
  match rows with
  | 0 => []
  | S rows' => firstn cols flat :: reshape2 rows' cols (skipn cols flat)
  end.

(** A tensor is rectangular: every row has the tensor's time extent. *)
Definition rectangular {A} (x : list (list A)) : Prop :=
  Forall (fun r => length r = time_steps x) x.

(** Shape of a rank-2 tensor read off its rows. *)
Definition dims {A} (x : list (list A)) : list nat := map (@length A) x.

(* ================================================================== *)
(** * Recurrent cores *)

(** What [util.make_rnn] hands back: a named cell with a default
    initial state per batch size and a step function.  The step is a
    pure function of its input, its state and the captured weights. *)
Record RNNCore (X Y S : Type) := mkCore {
  core_name : string;
  initial_state : nat -> S;
  core_step : X -> S -> Y * S
}.

(** Calling the core once, as [cell(input, state)]. *)
Definition run_core {X Y S} (cell : RNNCore X Y S) (x : X) (s : S)
  : M (Y * S) :=
  tell (Call (Core (core_name cell))) ;;; ret (core_step cell x s).

(** [cell.initial_state(batch_size)] when the batch size was inferred
    from a tensor: Python's [None] is not a batch size. *)
Definition initial_state_from {X Y S} (cell : RNNCore X Y S)
    (batch_size : option nat) : M S :=
  match batch_size with
  | Some b => ret (initial_state cell b)
  | None => raise (InvalidArgument "initial_state: batch size is None")
  end.

(** The recurrences themselves, free of effects: first step first ... *)
Fixpoint scan_left {X Y S} (step : X -> S -> Y * S) (xs : list X) (s : S)
  : list Y * S :=
  match xs with
  | [] => ([], s)
  | x :: xs' =>
      let (y, s1) := step x s in
      let (ys, sf) := scan_left step xs' s1 in
      (y :: ys, sf)
  end.

(** ... and last step first: the state entering step [t] is the one
    leaving step [t+1]. *)
Fixpoint scan_right {X Y S} (step : X -> S -> Y * S) (xs : list X) (s : S)
  : list Y * S :=
  match xs with
  | [] => ([], s)
  | x :: xs' =>
      let (ys, s1) := scan_right step xs' s in
      let (y, sf) := step x s1 in
      (y :: ys, sf)
  end.

(* ================================================================== *)
(** * TensorFlow and Sonnet primitives *)

(** A diagonal Gaussian object.  [mvn_id] is the identity of the Python
    object: two calls of the constructor never return the same one. *)
Record MVNDiag (T : Type) := mkMVN {
  mvn_id : nat;
  mvn_name : string;
  loc : T;
  scale_diag : T
}.

Module tf.

(** [tf.zeros(tf.stack([rows, cols]))]. *)
Definition zeros {R} `{Scalar R} (rows cols : nat) : list (list R) :=
  repeat (repeat zero cols) rows.

(** [tf.ones(tf.stack([rows, cols]))]. *)
Definition ones {R} `{Scalar R} (rows cols : nat) : list (list R) :=
  repeat (repeat one cols) rows.

(** [t.set_shape(...)] only refines the static shape annotation. *)
Definition set_shape {T} (t : T) (shape : list (option nat)) : T := t.

(** [tf.reverse(x, axis=[1])]. *)
Definition reverse {A} (x : list (list A)) : list (list A) :=
  map (@rev A) x.

(** [tf.TensorShape(dims)]. *)
Definition TensorShape (d : list nat) : list nat := d.

Module nn.

(** The unrolled loop of [dynamic_rnn] over time-major inputs. *)
Fixpoint rnn_loop {X Y S} (cell : RNNCore X Y S) (xs : list X) (s : S)
  : M (list Y * S) :=
  match xs with
  | [] => ret ([], s)
  | x :: xs' =>
      '(y, s1) <- run_core cell x s ;;
      '(ys, sf) <- rnn_loop cell xs' s1 ;;
      ret (y :: ys, sf)
  end.

(** [tf.nn.dynamic_rnn(cell, inputs, initial_state=...)] with the
    default [time_major=False]: inputs and outputs are
    [[batch, time, ...]]; the loop runs over the time-major view. *)
Definition dynamic_rnn {A B S} (cell : RNNCore (list A) (list B) S)
    (inputs : list (list A)) (initial : S)
  : M (list (list B) * S) :=
  '(outs, final) <-
     rnn_loop cell (transpose (time_steps inputs) inputs) initial ;;
  ret (transpose (length inputs) outs, final).

End nn.

Module distributions.

(** [MultivariateNormalDiag(loc=..., scale_diag=..., name=...)]. *)
Definition MultivariateNormalDiag {T} (loc scale_diag : T)
    (name : string) : M (MVNDiag T) :=
  id <- fresh ;;
  tell (NewMVN name id) ;;;
  ret (mkMVN id name loc scale_diag).

End distributions.

End tf.

Module snt.

(** [snt.BatchApply(module, n_dims=2)(x)]: merge the two leading axes,
    apply the module to the merged batch, split the result again. *)
Definition BatchApply {A B} (module : list A -> M (list B))
    (x : list (list A)) : M (list (list B)) :=
  flat <- module (concat x) ;;
  ret (reshape2 (length x) (time_steps x) flat).

End snt.

(* ================================================================== *)
(** * Hyperparameters and the helpers of [util] *)

Record HParams := mkHParams {
  batch_size : nat;
  sequence_size : nat;
  latent_size : nat;
  obs_shape : list nat
}.

Module util.

(** Modelled from the spec: [util.batch_size] is not among the
    sources; the batch size is "an explicit hyperparameter-derived
    constant". *)
Definition batch_size (hparams : HParams) : nat :=
  batch_size hparams.

(** Modelled from the spec: [util.sequence_size] is not among the
    sources; the hyperparameters give "read accessors for batch size,
    sequence length, latent size, observation shape". *)
Definition sequence_size (hparams : HParams) : nat :=
  sequence_size hparams.

(** Modelled from the spec: [util.batch_size_from_nested_tensors] is
    not among the sources; it "infers batch size from the shape of an
    actual tensor passed at call time", the leading dimension of the
    nested input.  Nothing to infer from yields Python's [None]. *)
Definition batch_size_from_nested_tensors {A} (tensors : Nest (list A))
  : option nat :=
  match flatten tensors with
  | [] => None
  | t :: _ => Some (length t)
  end.

(** Concatenating a non-empty list of tensors along the last axis. *)
Fixpoint concat_all {T} `{TensorLike T} (acc : T) (ts : list T)
  : Result T :=
  match ts with
  | [] => Ok acc
  | t :: ts' =>
      match concat_last acc t with
      | Ok acc' => concat_all acc' ts'
      | Raise e => Raise e
      end
  end.

(** Modelled from the spec: [util.concat_features] is not among the
    sources; it must "flatten/concatenate all into one vector", the
    input being possibly "a nested group of tensors".  The leading
    axes of the pieces have to agree, which is the shape check of the
    concatenation. *)
Definition concat_features {T} `{TensorLike T} (tensors : Nest T) : M T :=
  tell (Call ConcatFeatures) ;;;
  match flatten tensors with
  | [] => raise (InvalidArgument "concat: no tensors")
  | t :: ts => lift (concat_all t ts)
  end.

(** Modelled from the spec: [util.reverse_dynamic_rnn] is not among
    the sources; the backward sweep is to "reverse the input sequence
    along the time axis, run the forward recurrence, reverse the
    output back". *)
Definition reverse_dynamic_rnn {A B S}
    (cell : RNNCore (list A) (list B) S)
    (inputs : list (list A)) (initial : S)
  : M (list (list B) * S) :=
  '(outs, final) <- tf.nn.dynamic_rnn cell (tf.reverse inputs) initial ;;
  ret (tf.reverse outs, final).

End util.

(* ================================================================== *)
(** * External collaborators *)

Inductive DType := float32 | float64 | int32.

(** The observation decoder: declared event shape and type, the call
    [obs_decoder((d_out, latent))] giving head parameters, and
    [dist(params, name)]. *)
Record ObsDecoderT (V DParams ODist : Type) := mkObsDecoder {
  dec_event_size : list nat;
  dec_event_dtype : DType;
  dec_call : V * V -> DParams;
  dec_dist : DParams -> option string -> ODist
}.

(** The latent parameter decoder [latent_mod.LatentDecoder]: the call
    on a batch of feature vectors and [dist(params, name)]. *)
Record LatentDecoderT (V QParams QDist : Type) := mkLatentDecoder {
  q_call : list V -> list QParams;
  q_dist : list (list QParams) -> string -> QDist
}.

(* ================================================================== *)
(** * Package [vae_seq]: [vae_seq/vae/independent_sequence.py] *)

Module vae_seq.
Section Source.

Variables (R Obs St QParams QDist DParams ODist : Type).
Context `{Scalar R}.

Notation vec := (list R).
Notation batch := (list (list R)).          (* [B, F] *)
Notation sequence := (list (list (list R))). (* [B, T, F] *)

(** [q_zs.sample()]: the draw made in this pass. *)
Variable sample : QDist -> sequence.
(** [util.calc_kl], not among the sources: per-timestep divergence of
  the posterior from the prior at the sampled latents. *)
Variable calc_kl :
HParams -> sequence -> QDist -> MVNDiag sequence -> list (list R).

(** ** LatentPrior *)

Record LatentPrior := mkLatentPrior {
lp_hparams : HParams;
lp_dist : MVNDiag batch
}.

Definition LatentPrior_init (hparams : HParams) : M LatentPrior :=
let dims := (util.batch_size hparams, latent_size hparams) in
let loc := tf.zeros (fst dims) (snd dims) in
let loc := tf.set_shape loc [None; Some (latent_size hparams)] in
let scale_diag := tf.ones (fst dims) (snd dims) in
let scale_diag :=
  tf.set_shape scale_diag [None; Some (latent_size hparams)] in
d <- tf.distributions.MultivariateNormalDiag loc scale_diag "prior_z" ;;
ret (mkLatentPrior hparams d).

Definition LatentPrior_state_size (self : LatentPrior) : Nest nat :=
unit_nest.

Definition LatentPrior_event_size (self : LatentPrior) : list nat :=
tf.TensorShape [latent_size (lp_hparams self)].

(** [dist(self, params)]: the latent distribution is constant. *)
Definition LatentPrior_dist {P} (self : LatentPrior) (params : P)
: M (MVNDiag batch) :=
tell (Call LatentPriorDist) ;;;
ret (lp_dist self).

Definition LatentPrior_next_state {S E} (self : LatentPrior)
  (state_arg : Nest S) (event : option E) : Nest S :=
unit_nest.

Definition LatentPrior_build {C S} (self : LatentPrior)
  (context : Nest C) (state : Nest S)
: Nest (option nat) * Nest S :=
(unit_nest, unit_nest).

(** ** ObsDist *)

Record ObsDist := mkObsDist {
od_hparams : HParams;
od_d_core : RNNCore batch batch St;
od_obs_decoder : ObsDecoderT batch DParams ODist
}.

Definition ObsDist_init (hparams : HParams)
  (d_core : RNNCore batch batch St)
  (obs_decoder : ObsDecoderT batch DParams ODist) : ObsDist :=
mkObsDist hparams d_core obs_decoder.

Definition ObsDist_event_size (self : ObsDist) : list nat :=
tf.TensorShape (obs_shape (od_hparams self)).

Definition ObsDist_event_dtype (self : ObsDist) : DType :=
dec_event_dtype (od_obs_decoder self).

Definition ObsDist_dist (self : ObsDist) (params : DParams) : ODist :=
dec_dist (od_obs_decoder self) params None.

Definition ObsDist_next_state {E} (self : ObsDist)
  (d_state : St) (event : option E) : St :=
d_state.

Definition ObsDist_build (self : ObsDist)
  (inputs : Nest batch * batch) (d_state : St) : M (DParams * St) :=
let (context, latent) := inputs in
x <- util.concat_features context ;;
'(d_out, d_state) <- run_core (od_d_core self) x d_state ;;
params <- call ObsDecoder (dec_call (od_obs_decoder self))
            (d_out, latent) ;;
ret (params, d_state).

(** ** IndependentSequence *)

Record IndependentSequence := mkIndependentSequence {
_hparams : HParams;
_obs_encoder : list Obs -> list vec;
_obs_decoder : ObsDecoderT batch DParams ODist;
_d_core : RNNCore batch batch St;
_e_core : RNNCore batch batch St;
_f_core : RNNCore batch batch St;
_q_z : LatentDecoderT vec QParams QDist;
_latent_prior_distcore : LatentPrior;
_observed_distcore : ObsDist
}.

Definition infer_latents (self : IndependentSequence)
  (contexts : Nest sequence) (observed : list (list Obs))
: M (sequence * list (list R)) :=
let hparams := _hparams self in
let batch_size := util.batch_size hparams in
enc_observed <-
  snt.BatchApply (call ObsEncoder (_obs_encoder self)) observed ;;
features <- util.concat_features (Tuple [contexts; Leaf enc_observed]) ;;
'(e_outs, _) <-
  tf.nn.dynamic_rnn (_e_core self) features
    (initial_state (_e_core self) batch_size) ;;
'(f_outs, _) <-
  util.reverse_dynamic_rnn (_f_core self) e_outs
    (initial_state (_f_core self) batch_size) ;;
q_params <-
  snt.BatchApply (call LatentDecoder (q_call (_q_z self))) f_outs ;;
q_zs <- call (LatentDecoderDist "q_zs")
          (fun p => q_dist (_q_z self) p "q_zs") q_params ;;
latents <- call Sample sample q_zs ;;
p_zs <- tf.distributions.MultivariateNormalDiag
          (zeros_like latents) (ones_like latents) "p_zs" ;;
tell (CalcKL (mvn_id p_zs)) ;;;
let divs := calc_kl hparams latents q_zs p_zs in
ret (latents, divs).

(** ** Construction *)

Section Construction.

(** [util.make_rnn(hparams, name=...)], the recurrent cell factory, and
  [latent_mod.LatentDecoder(hparams, name=...)] are external. *)
Variable make_rnn : HParams -> string -> RNNCore batch batch St.
Variable latent_mod_LatentDecoder :
HParams -> string -> LatentDecoderT vec QParams QDist.

(** [_init_submodules], on a [self] in which [__init__] has stored
  [hparams], [obs_encoder] and [obs_decoder].  Constructing the
  [LatentPrior] builds its Gaussian. *)
Definition _init_submodules (hparams : HParams)
  (obs_encoder : list Obs -> list vec)
  (obs_decoder : ObsDecoderT batch DParams ODist)
: M IndependentSequence :=
let d_core := make_rnn hparams "d_core" in
let e_core := make_rnn hparams "e_core" in
let f_core := make_rnn hparams "f_core" in
let q_z := latent_mod_LatentDecoder hparams "latent_q" in
latent_prior_distcore <- LatentPrior_init hparams ;;
let observed_distcore := ObsDist_init hparams d_core obs_decoder in
ret (mkIndependentSequence hparams obs_encoder obs_decoder
     d_core e_core f_core q_z latent_prior_distcore observed_distcore).

End Construction.

End Source.
End vae_seq.


(* ================================================================== *)
(** * Package [vaeseq]: [vaeseq/vae/independent_sequence.py] *)

Module vaeseq.
Section Source.

Variables (R Obs St QParams QDist DParams ODist : Type).
Context `{Scalar R}.

Notation vec := (list R).
Notation batch := (list (list R)).          (* [B, F] *)
Notation sequence := (list (list (list R))). (* [B, T, F] *)

(** [q_zs.sample()]: the draw made in this pass. *)
Variable sample : QDist -> sequence.
(** [util.calc_kl], not among the sources: per-timestep divergence of
    the posterior from the prior at the sampled latents. *)
Variable calc_kl :
  HParams -> sequence -> QDist -> MVNDiag sequence -> list (list R).

(** ** LatentPrior *)

Record LatentPrior := mkLatentPrior {
  lp_hparams : HParams;
  module_name : string
}.

(** [LatentPrior(hparams, name=...)].  The constructor hands [name] to
    Sonnet's base class, which turns it (or the class name, when there
    is none) into a scope name that is unique in the graph, as
    [latent_prior], [latent_prior_1], ...; [module_name] is the scope
    name Sonnet settled on, whatever it is. *)
Definition LatentPrior_init (hparams : HParams) (module_name : string)
  : LatentPrior :=
  mkLatentPrior hparams module_name.

Definition LatentPrior_state_size (self : LatentPrior) : Nest nat :=
  unit_nest.

Definition LatentPrior_event_size (self : LatentPrior) : list nat :=
  tf.TensorShape [latent_size (lp_hparams self)].

Definition LatentPrior_event_dtype (self : LatentPrior) : DType :=
  float32.

(** Python's [name or default]: [None] and the empty string are falsy. *)
Definition name_or (name : option string) (default : string) : string :=
  match name with
  | Some EmptyString => default
  | Some n => n
  | None => default
  end.

Definition LatentPrior_dist (self : LatentPrior) (batch_size : nat)
    (name : option string) : M (MVNDiag batch) :=
  tell (Call LatentPriorDist) ;;;
  let dims := (batch_size, latent_size (lp_hparams self)) in
  let loc := tf.zeros (fst dims) (snd dims) in
  let loc :=
    tf.set_shape loc [None; Some (latent_size (lp_hparams self))] in
  let scale_diag := tf.ones (fst dims) (snd dims) in
  let scale_diag :=
    tf.set_shape scale_diag [None; Some (latent_size (lp_hparams self))] in
  tf.distributions.MultivariateNormalDiag loc scale_diag
    (name_or name (module_name self ++ "_dist")).

Definition LatentPrior_next_state {S E} (self : LatentPrior)
    (state_arg : Nest S) (event : option E) : Nest S :=
  unit_nest.

Definition LatentPrior_build {C S} (self : LatentPrior)
    (context : Nest (list C)) (state : Nest S)
  : Nest (option nat) * Nest S :=
  let batch_size := util.batch_size_from_nested_tensors context in
  (Leaf batch_size, unit_nest).

(** ** ObsDist *)

Record ObsDist := mkObsDist {
  od_d_core : RNNCore batch batch St;
  od_obs_decoder : ObsDecoderT batch DParams ODist
}.

Definition ObsDist_init (d_core : RNNCore batch batch St)
    (obs_decoder : ObsDecoderT batch DParams ODist) : ObsDist :=
  mkObsDist d_core obs_decoder.

Definition ObsDist_event_size (self : ObsDist) : list nat :=
  dec_event_size (od_obs_decoder self).

Definition ObsDist_event_dtype (self : ObsDist) : DType :=
  dec_event_dtype (od_obs_decoder self).

Definition ObsDist_dist (self : ObsDist) (params : DParams)
    (name : option string) : ODist :=
  dec_dist (od_obs_decoder self) params name.

Definition ObsDist_next_state {E} (self : ObsDist)
    (d_state : St) (event : option E) : St :=
  d_state.

Definition ObsDist_build (self : ObsDist)
    (inputs : Nest batch * batch) (d_state : St) : M (DParams * St) :=
  let (context, latent) := inputs in
  x <- util.concat_features context ;;
  '(d_out, d_state) <- run_core (od_d_core self) x d_state ;;
  params <- call ObsDecoder (dec_call (od_obs_decoder self))
              (d_out, latent) ;;
  ret (params, d_state).

(** ** IndependentSequence *)

Record IndependentSequence := mkIndependentSequence {
  _hparams : HParams;
  _obs_encoder : list Obs -> list vec;
  _obs_decoder : ObsDecoderT batch DParams ODist;
  _d_core : RNNCore batch batch St;
  _e_core : RNNCore batch batch St;
  _f_core : RNNCore batch batch St;
  _q_z : LatentDecoderT vec QParams QDist;
  _latent_prior_distcore : LatentPrior;
  _observed_distcore : ObsDist
}.

Definition infer_latents (self : IndependentSequence)
    (contexts : Nest sequence) (observed : list (list Obs))
  : M (sequence * list (list R)) :=
  let hparams := _hparams self in
  let batch_size := util.batch_size_from_nested_tensors (Leaf observed) in
  enc_observed <-
    snt.BatchApply (call ObsEncoder (_obs_encoder self)) observed ;;
  features <- util.concat_features (Tuple [contexts; Leaf enc_observed]) ;;
  e_init <- initial_state_from (_e_core self) batch_size ;;
  '(e_outs, _) <- tf.nn.dynamic_rnn (_e_core self) features e_init ;;
  f_init <- initial_state_from (_f_core self) batch_size ;;
  '(f_outs, _) <- util.reverse_dynamic_rnn (_f_core self) e_outs f_init ;;
  q_params <-
    snt.BatchApply (call LatentDecoder (q_call (_q_z self))) f_outs ;;
  q_zs <- call (LatentDecoderDist "q_zs")
            (fun p => q_dist (_q_z self) p "q_zs") q_params ;;
  latents <- call Sample sample q_zs ;;
  p_zs <- tf.distributions.MultivariateNormalDiag
            (zeros_like latents) (ones_like latents) "p_zs" ;;
  tell (CalcKL (mvn_id p_zs)) ;;;
  let divs := calc_kl hparams latents q_zs p_zs in
  ret (latents, divs).

(** ** Construction *)

Section Construction.

(** [util.make_rnn(hparams, name=...)], the recurrent cell factory, and
    [latent_mod.LatentDecoder(hparams, name=...)] are external. *)
Variable make_rnn : HParams -> string -> RNNCore batch batch St.
Variable latent_mod_LatentDecoder :
  HParams -> string -> LatentDecoderT vec QParams QDist.
(** The scope name Sonnet settles on for the unnamed
    [LatentPrior(hparams)] of this model. *)
Variable latent_prior_scope : string.

(** [_init_submodules], on a [self] in which [__init__] has stored
    [hparams], [obs_encoder] and [obs_decoder].  No distribution is
    built. *)
Definition _init_submodules (hparams : HParams)
    (obs_encoder : list Obs -> list vec)
    (obs_decoder : ObsDecoderT batch DParams ODist)
  : IndependentSequence :=
  let d_core := make_rnn hparams "d_core" in
  let e_core := make_rnn hparams "e_core" in
  let f_core := make_rnn hparams "f_core" in
  let q_z := latent_mod_LatentDecoder hparams "latent_q" in
  let latent_prior_distcore := LatentPrior_init hparams latent_prior_scope in
  let observed_distcore := ObsDist_init d_core obs_decoder in
  mkIndependentSequence hparams obs_encoder obs_decoder
    d_core e_core f_core q_z latent_prior_distcore observed_distcore.

End Construction.

End Source.
End vaeseq.

(* ================================================================== *)
(** * The sweeps as the specification words them *)

(** Left-to-right sweep of a cell over a [[batch, time, ...]] tensor. *)
Definition forward_sweep {A B S} (cell : RNNCore (list A) (list B) S)
    (inputs : list (list A)) (initial : S) : list (list B) * S :=
  let (outs, final) :=
    scan_left (core_step cell)
      (transpose (time_steps inputs) inputs) initial in
  (transpose (length inputs) outs, final).

(** Right-to-left sweep: the last time step is processed first and the
    output at time [t] stays at position [t]. *)
Definition backward_sweep {A B S} (cell : RNNCore (list A) (list B) S)
    (inputs : list (list A)) (initial : S) : list (list B) * S :=
  let (outs, final) :=
    scan_right (core_step cell)
      (transpose (time_steps inputs) inputs) initial in
  (transpose (length inputs) outs, final).

(** The same right-to-left sweep as a loop that calls the cell. *)
Fixpoint rnn_loop_backward {X Y S} (cell : RNNCore X Y S)
    (xs : list X) (s : S) : M (list Y * S) :=
  match xs with
  | [] => ret ([], s)
  | x :: xs' =>
      '(ys, s1) <- rnn_loop_backward cell xs' s ;;
      '(y, sf) <- run_core cell x s1 ;;
      ret (y :: ys, sf)
  end.

Definition backward_dynamic_rnn {A B S}
    (cell : RNNCore (list A) (list B) S)
    (inputs : list (list A)) (initial : S) : M (list (list B) * S) :=
  '(outs, final) <-
     rnn_loop_backward cell (transpose (time_steps inputs) inputs) initial ;;
  ret (transpose (length inputs) outs, final).

(** A cell whose step hands its input back and leaves the state alone. *)
Definition identity_core {X S} (name : string) (init : nat -> S)
  : RNNCore X X S :=
  mkCore name init (fun x s => (x, s)).

(** Appending events to a graph. *)
Definition log (evs : list Event) (g : Graph) : Graph :=
  mkGraph (next_id g) (trace g ++ evs).

(** A cell keeps the batch size of what it is fed. *)
Definition keeps_batch {A B S} (cell : RNNCore (list A) (list B) S) : Prop :=
  forall x s, length (fst (core_step cell x s)) = length x.

(* ================================================================== *)
(** * A small concrete model, for running the definitions *)

Module Demo.

#[global] Instance nat_scalar : Scalar nat := {| zero := 0; one := 1 |}.

(** An accumulating cell: the output adds the running state to every
    feature, the state grows by the batch size. *)
Definition sum_core (name : string) : RNNCore (list (list nat)) (list (list nat)) nat :=
  mkCore name (fun batch_size => batch_size)
    (fun x s => (map (map (Nat.add s)) x, s + length x)).

(** Two rows, three time steps, one feature each. *)
Definition two_by_three : list (list (list nat)) :=
  [[[1]; [2]; [3]]; [[4]; [5]; [6]]].

Definition empty_graph : Graph := mkGraph 0 [].

(** The hyperparameters of the test scenario: batch 4, five steps,
    three latent dimensions, one-hot observations over 2 categories. *)
Definition hparams : HParams := mkHParams 4 5 3 [2].

(** A decoder that declares three-dimensional integer events. *)
Definition decoder3
  : ObsDecoderT (list (list nat)) (list (list nat)) (list (list nat)) :=
  mkObsDecoder [3] int32
    (fun inputs => fst inputs ++ snd inputs)
    (fun params _ => params).

(** The prior of package [vae_seq], built on an empty graph. *)
Definition old_prior_built
  : Result (vae_seq.LatentPrior nat) * Graph :=
  vae_seq.LatentPrior_init hparams empty_graph.

Definition old_prior : vae_seq.LatentPrior nat :=
  vae_seq.mkLatentPrior hparams
    (mkMVN 0 "prior_z" (tf.zeros 4 3) (tf.ones 4 3)).

(** The first unnamed prior of a graph in package [vaeseq]. *)
Definition new_prior : vaeseq.LatentPrior :=
  vaeseq.LatentPrior_init hparams "latent_prior".

(** A small inference problem: batch 2, three steps. *)
Definition small_hparams : HParams := mkHParams 2 3 2 [].

Definition observed : list (list nat) := [[1; 2; 3]; [4; 5; 6]].

Definition encode (x : nat) : list nat := [x; x + 1].

Definition q_params (v : list nat) : nat := fold_right Nat.add 0 v.

Definition q_z : LatentDecoderT (list nat) nat (list (list nat)) :=
  mkLatentDecoder (map q_params) (fun params _ => params).

Definition sample (q_zs : list (list nat)) : list (list (list nat)) :=
  map (map (fun p => [p; p + 1])) q_zs.

Definition calc_kl (_ : HParams) (latents : list (list (list nat)))
    (q_zs : list (list nat)) (p_zs : MVNDiag (list (list (list nat))))
  : list (list nat) :=
  map (map (fold_right Nat.add 0)) latents.

Definition old_vae
  : vae_seq.IndependentSequence nat nat nat nat (list (list nat))
      (list (list nat)) (list (list nat)) :=
  vae_seq.mkIndependentSequence small_hparams (map encode) decoder3
    (sum_core "d_core") (sum_core "e_core") (sum_core "f_core") q_z
    (vae_seq.mkLatentPrior small_hparams
       (mkMVN 0 "prior_z" (tf.zeros 2 2) (tf.ones 2 2)))
    (vae_seq.ObsDist_init small_hparams (sum_core "d_core") decoder3).

Definition new_vae
  : vaeseq.IndependentSequence nat nat nat nat (list (list nat))
      (list (list nat)) (list (list nat)) :=
  vaeseq.mkIndependentSequence small_hparams (map encode) decoder3
    (sum_core "d_core") (sum_core "e_core") (sum_core "f_core") q_z
    (vaeseq.LatentPrior_init small_hparams "latent_prior")
    (vaeseq.ObsDist_init (sum_core "d_core") decoder3).

(** A context of two steps only, against observations of three. *)
Definition short_context : list (list (list nat)) :=
  [[[1]; [2]]; [[4]; [5]]].

End Demo.

(** The same orchestrator with another [LatentPrior] component. *)
Definition vae_seq_with_prior {R Obs St QParams QDist DParams ODist}
    (self : vae_seq.IndependentSequence R Obs St QParams QDist DParams ODist)
    (prior : vae_seq.LatentPrior R)
  : vae_seq.IndependentSequence R Obs St QParams QDist DParams ODist :=
  vae_seq.mkIndependentSequence (vae_seq._hparams self)
    (vae_seq._obs_encoder self) (vae_seq._obs_decoder self)
    (vae_seq._d_core self) (vae_seq._e_core self) (vae_seq._f_core self)
    (vae_seq._q_z self) prior (vae_seq._observed_distcore self).

Definition vaeseq_with_prior {R Obs St QParams QDist DParams ODist}
    (self : vaeseq.IndependentSequence R Obs St QParams QDist DParams ODist)
    (prior : vaeseq.LatentPrior)
  : vaeseq.IndependentSequence R Obs St QParams QDist DParams ODist :=
  vaeseq.mkIndependentSequence (vaeseq._hparams self)
    (vaeseq._obs_encoder self) (vaeseq._obs_decoder self)
    (vaeseq._d_core self) (vaeseq._e_core self) (vaeseq._f_core self)
    (vaeseq._q_z self) prior (vaeseq._observed_distcore self).

(** Threading a state through a distribution core: at every step the
    core is stepped on the context, an event is sampled or observed,
    and [next_state] advances the state.  The result lists the state
    after each time step. *)
Fixpoint thread_states {C E P St} (step : C -> St -> P * St)
    (next_state : St -> option E -> St)
    (inputs : list (C * option E)) (state : St) : list St :=
  match inputs with
  | [] => []
  | (context, event) :: rest =>
      let state1 := snd (step context state) in
      let state2 := next_state state1 event in
      state2 :: thread_states step next_state rest state2
  end.

(** The observation step as the specification words it: concatenate
    the context into one feature tensor, run the cell on it, decode
    (deterministic output, latent); the cell's new state is returned. *)
Definition obs_step {V DParams ODist St} `{TensorLike V}
    (d_core : RNNCore V V St) (obs_decoder : ObsDecoderT V DParams ODist)
    (context : Nest V) (latent : V) (d_state : St)
  : M (DParams * St) :=
  fun g =>
    match util.concat_features context g with
    | (Ok features, g1) =>
        let (d_out, next_d_state) := core_step d_core features d_state in
        (Ok (dec_call obs_decoder (d_out, latent), next_d_state),
         mkGraph (next_id g1)
           (trace g1 ++ [Call (Core (core_name d_core)); Call ObsDecoder]))
    | (Raise e, g1) => (Raise e, g1)
    end.

(** The state a step hands on, when it succeeds. *)
Definition state_of {P St} (r : Result (P * St) * Graph) : option St :=
  match fst r with
  | Ok (_, s) => Some s
  | Raise _ => None
  end.

(** The value a computation returns, when it succeeds. *)
Definition value_of {A} (r : Result A * Graph) : option A :=
  match fst r with
  | Ok a => Some a
  | Raise _ => None
  end.

(* ================================================================== *)
(** * The inference pass as the specification words it *)

Fixpoint zip_with {A B C} (f : A -> B -> C) (xs : list A) (ys : list B)
  : list C :=
  match xs, ys with
  | x :: xs', y :: ys' => f x y :: zip_with f xs' ys'
  | _, _ => []
  end.

(** Per-timestep concatenation of two [[B, T, F]] tensors. *)
Definition join_features {R} (a b : list (list (list R)))
  : list (list (list R)) :=
  zip_with (zip_with (@app R)) a b.

(** Per-timestep concatenation of a group of tensors, left to right. *)
Definition join_all {R} (ts : list (list (list (list R))))
  : list (list (list R)) :=
  match ts with
  | [] => []
  | t :: rest => fold_left join_features rest t
  end.

(** Batch and time axes agree. *)
Definition aligned {A B} (c : list (list A)) (o : list (list B)) : Prop :=
  dims c = dims o.

(** The calls of one inference pass over [steps] time steps, in order. *)
Definition inference_trace (e_name f_name : string) (steps prior_id : nat)
  : list Event :=
  [Call ObsEncoder; Call ConcatFeatures]
  ++ repeat (Call (Core e_name)) steps
  ++ repeat (Call (Core f_name)) steps
  ++ [Call LatentDecoder; Call (LatentDecoderDist "q_zs"); Call Sample;
      NewMVN "p_zs" prior_id; CalcKL prior_id].

Section Inference_pass.
Context {R Obs St QParams QDist : Type} `{Scalar R}.
Variable encode : Obs -> list R.
Variables e_core f_core : RNNCore (list (list R)) (list (list R)) St.
Variable q_params : list R -> QParams.
Variable q_dist : list (list QParams) -> string -> QDist.
Variable sample : QDist -> list (list (list R)).
Variable calc_kl :
  HParams -> list (list (list R)) -> QDist
  -> MVNDiag (list (list (list R))) -> list (list R).

(** Encode every observation on its own; concatenate context and
    encoding per time step; sweep "e" left to right and "f" right to
    left over all of e's outputs, each from its default initial state;
    decode every fused output into the posterior; draw the latents;
    take the zero-mean, unit-scale prior shaped like them; compute the
    divergences. *)
Definition inference_pass (hparams : HParams) (batch_size prior_id : nat)
    (contexts : list (list (list (list R)))) (observed : list (list Obs))
  : list (list (list R)) * list (list R) :=
  let enc_observed := map (map encode) observed in
  let features := join_all (contexts ++ [enc_observed]) in
  let e_outs :=
    fst (forward_sweep e_core features (initial_state e_core batch_size)) in
  let f_outs :=
    fst (backward_sweep f_core e_outs (initial_state f_core batch_size)) in
  let q_zs := q_dist (map (map q_params) f_outs) "q_zs" in
  let latents := sample q_zs in
  let p_zs :=
    mkMVN prior_id "p_zs"
      (map (map (map (fun _ => zero))) latents)
      (map (map (map (fun _ => one))) latents) in
  (latents, calc_kl hparams latents q_zs p_zs).

End Inference_pass.

(** Reading a trace: the prior handed to [calc_kl] ... *)
Fixpoint kl_prior (evs : list Event) : option nat :=
  match evs with
  | [] => None
  | CalcKL id :: _ => Some id
  | _ :: rest => kl_prior rest
  end.

(** ... whether that object was built here under the name [p_zs] ... *)
Definition builds_p_zs (id : nat) (ev : Event) : bool :=
  match ev with
  | NewMVN name id' => String.eqb name "p_zs" && Nat.eqb id id'
  | _ => false
  end.

(** ... and whether [LatentPrior.dist] was called at all. *)
Definition calls_latent_prior (ev : Event) : bool :=
  match ev with
  | Call LatentPriorDist => true
  | _ => false
  end.

(** The prior of the divergence was constructed inline. *)
Definition prior_built_inline (evs : list Event) : bool :=
  match kl_prior evs with
  | Some id => existsb (builds_p_zs id) evs
               && negb (existsb calls_latent_prior evs)
  | None => false
  end.

(** The prior of the divergence was obtained from [LatentPrior]. *)
Definition prior_from_latent_prior (evs : list Event) : bool :=
  match kl_prior evs with
  | Some _ => existsb calls_latent_prior evs
  | None => false
  end.

(** Extents of the innermost axis of a [[B, T, F]] tensor, entry by
    entry: together with the nesting this is the tensor's shape. *)
Definition feature_dims {R} (x : list (list (list R))) : list (list nat) :=
  map (map (@length R)) x.

(** Every entry of a [[B, T, F]] tensor is the constant [c]. *)
Definition filled_with {R} (c : R) (x : list (list (list R))) : Prop :=
  Forall (Forall (Forall (eq c))) x.

(* ================================================================== *)
(** * What an inference pass may touch *)

(** The events that belong to the inference half of the model: the
    observation encoder, the concatenation, the cells named [e_name]
    and [f_name], the latent decoder and its distribution [q_zs], the
    draw, the Gaussian [p_zs] and the divergence. *)
Definition inference_event (e_name f_name : string) (ev : Event) : bool :=
  match ev with
  | Call ObsEncoder => true
  | Call ConcatFeatures => true
  | Call (Core name) => String.eqb name e_name || String.eqb name f_name
  | Call LatentDecoder => true
  | Call (LatentDecoderDist name) => String.eqb name "q_zs"
  | Call Sample => true
  | Call ObsDecoder => false
  | Call LatentPriorDist => false
  | NewMVN name _ => String.eqb name "p_zs"
  | CalcKL _ => true
  end.

(** The calls an inference pass makes after the concatenation, over
    [n] steps of cell "e" and [m] steps of cell "f". *)
Definition sweep_trace (e_name f_name : string) (n m prior_id : nat)
  : list Event :=
  repeat (Call (Core e_name)) n
  ++ repeat (Call (Core f_name)) m
  ++ [Call LatentDecoder; Call (LatentDecoderDist "q_zs"); Call Sample;
      NewMVN "p_zs" prior_id; CalcKL prior_id].

(* ================================================================== *)
(** * Rollouts of a distribution core *)

(** Modelled from the spec: the rollout loop of [dist_module.DistCore]
    is not among the sources; at each step the core is stepped on the
    input and the state it returns is advanced by [next_state] on the
    event of that step, observed (teacher forcing) or absent. *)
Fixpoint rollout {I E P St} (step : I -> St -> M (P * St))
    (next_state : St -> option E -> St)
    (inputs : list (I * option E)) (state : St) : M (list P * St) :=
  match inputs with
  | [] => ret ([], state)
  | (input, event) :: rest =>
      '(params, state1) <- step input state ;;
      '(ps, final) <- rollout step next_state rest (next_state state1 event) ;;
      ret (params :: ps, final)
  end.

(** The context of a rollout input [((context, latent), event)]. *)
Definition context_of {C L E} (input : (C * L) * option E) : C :=
  fst (fst input).

(** The latent of a rollout input. *)
Definition latent_of {C L E} (input : (C * L) * option E) : L :=
  snd (fst input).

(** What [util.concat_features] hands back, or the error it raises. *)
Definition concatenated {T} `{TensorLike T} (tensors : Nest T) : Result T :=
  fst (util.concat_features tensors (mkGraph 0 [])).

(** The calls of one successful step of [ObsDist]. *)
Definition obs_step_trace (d_name : string) : list Event :=
  [Call ConcatFeatures; Call (Core d_name); Call ObsDecoder].

(* ================================================================== *)
(** * The test inputs: [vae_seq/vae/vae_test.py] *)

(** A tensor of any rank, outermost axis first. *)
Inductive NDArray (R : Type) :=
| Item (r : R)
| Axis (items : list (NDArray R)).
Arguments Item {R} r.
Arguments Axis {R} items.

(** [tf.zeros(shape, dtype=...)] for a shape of any rank. *)
Fixpoint zeros_of_shape {R} `{Scalar R} (shape : list nat) : NDArray R :=
  match shape with
  | [] => Item zero
  | n :: rest => Axis (repeat (zeros_of_shape rest) n)
  end.

(** The entries along the outermost axis. *)
Definition unstack {R} (t : NDArray R) : list (NDArray R) :=
  match t with
  | Item _ => []
  | Axis items => items
  end.

(** A tensor of rank 2 or more read as [[batch, time]] observations. *)
Definition batch_time {R} (t : NDArray R) : list (list (NDArray R)) :=
  map unstack (unstack t).

Module vae_test.

(** [_observed(hparams)]: all-zero test observations of shape
    [[batch_size, sequence_size] + obs_shape]. *)
Definition _observed {R} `{Scalar R} (hparams : HParams)
  : list (list (NDArray R)) :=
  batch_time
    (zeros_of_shape
       ([util.batch_size hparams; util.sequence_size hparams]
        ++ obs_shape hparams)).

End vae_test.

(* ================================================================== *)
(** * Concrete data for the further properties *)

Module Scenario.

(** A cell factory that names the cell as asked. *)
Definition make_rnn (_ : HParams) (name : string)
  : RNNCore (list (list nat)) (list (list nat)) nat :=
  Demo.sum_core name.

Definition latent_decoder (_ : HParams) (_ : string)
  : LatentDecoderT (list nat) nat (list (list nat)) :=
  Demo.q_z.

Definition old_obs : vae_seq.ObsDist nat nat (list (list nat)) (list (list nat)) :=
  vae_seq.ObsDist_init Demo.small_hparams (Demo.sum_core "d_core")
    Demo.decoder3.

Definition new_obs : vaeseq.ObsDist nat nat (list (list nat)) (list (list nat)) :=
  vaeseq.ObsDist_init (Demo.sum_core "d_core") Demo.decoder3.

(** Two steps of a generation rollout: contexts of two signals, batch
    size 2; the two lists differ in the latents and the events only. *)
Definition inputs1
  : list ((Nest (list (list nat)) * list (list nat)) * option nat) :=
  [((Tuple [Leaf [[1]; [2]]; Leaf [[3]; [4]]], [[7]; [8]]), Some 1);
   ((Leaf [[5]; [6]], [[9]; [9]]), None)].

Definition inputs2
  : list ((Nest (list (list nat)) * list (list nat)) * option nat) :=
  [((Tuple [Leaf [[1]; [2]]; Leaf [[3]; [4]]], [[0]; [0]]), None);
   ((Leaf [[5]; [6]], [[1]; [1]]), Some 4)].

End Scenario.

(* ================================================================== *)
(** * Facts about the graph monad *)

Lemma log_nil g : log [] g = g.
Proof. destruct g; unfold log; simpl. now rewrite app_nil_r. Qed.

Lemma log_log evs1 evs2 g : log evs2 (log evs1 g) = log (evs1 ++ evs2) g.
Proof. unfold log; simpl. now rewrite app_assoc. Qed.

Lemma tell_run ev g : tell ev g = (Ok tt, log [ev] g).
Proof. reflexivity. Qed.

Lemma call_run {A B} c (f : A -> B) a g :
  call c f a g = (Ok (f a), log [Call c] g).
Proof. reflexivity. Qed.

Lemma run_core_run {X Y S} (cell : RNNCore X Y S) x s g :
  run_core cell x s g
  = (Ok (core_step cell x s), log [Call (Core (core_name cell))] g).
Proof. reflexivity. Qed.

Lemma emitted_log evs g : emitted g (log evs g) = evs.
Proof.
  unfold emitted, log; simpl.
  rewrite skipn_app, skipn_all, Nat.sub_diag. reflexivity.
Qed.

(* ================================================================== *)
(** * Facts about the recurrences *)

Section Scans.
Context {X Y S : Type}.
Variable step : X -> S -> Y * S.

Lemma scan_left_snoc xs x s :
  scan_left step (xs ++ [x]) s
  = let (ys, s1) := scan_left step xs s in
    let (y, sf) := step x s1 in
    (ys ++ [y], sf).
Proof.
  revert s. induction xs as [|a xs IH]; intros s; simpl.
  - destruct (step x s); reflexivity.
  - destruct (step a s) as [y0 s0]. rewrite IH.
    destruct (scan_left step xs s0) as [ys s1].
    destruct (step x s1); reflexivity.
Qed.

Lemma scan_left_rev xs s :
  scan_left step (rev xs) s
  = let (ys, sf) := scan_right step xs s in (rev ys, sf).
Proof.
  induction xs as [|a xs IH]; simpl; [reflexivity|].
  rewrite scan_left_snoc, IH.
  destruct (scan_right step xs s) as [ys s1].
  destruct (step a s1); reflexivity.
Qed.

Lemma scan_left_length xs s : length (fst (scan_left step xs s)) = length xs.
Proof.
  revert s. induction xs as [|a xs IH]; intros s; simpl; [reflexivity|].
  destruct (step a s) as [y0 s0]. specialize (IH s0).
  destruct (scan_left step xs s0); simpl in *. now rewrite IH.
Qed.

Lemma scan_right_length xs s :
  length (fst (scan_right step xs s)) = length xs.
Proof.
  induction xs as [|a xs IH]; simpl; [reflexivity|].
  destruct (scan_right step xs s) as [ys s1]; simpl in *.
  destruct (step a s1); simpl. now rewrite IH.
Qed.

End Scans.

Section Loops.
Context {X Y St : Type}.
Variable cell : RNNCore X Y St.

Lemma rnn_loop_run xs s g :
  tf.nn.rnn_loop cell xs s g
  = (Ok (scan_left (core_step cell) xs s),
     log (repeat (Call (Core (core_name cell))) (length xs)) g).
Proof.
  revert s g. induction xs as [|x xs IH]; intros s g; simpl.
  - unfold ret. now rewrite log_nil.
  - unfold bind at 1. rewrite run_core_run.
    destruct (core_step cell x s) as [y s1].
    unfold bind at 1. rewrite IH.
    destruct (scan_left (core_step cell) xs s1) as [ys sf].
    unfold ret. now rewrite log_log.
Qed.

Lemma rnn_loop_backward_run xs s g :
  rnn_loop_backward cell xs s g
  = (Ok (scan_right (core_step cell) xs s),
     log (repeat (Call (Core (core_name cell))) (length xs)) g).
Proof.
  revert g. induction xs as [|x xs IH]; intros g; simpl.
  - unfold ret. now rewrite log_nil.
  - unfold bind at 1. rewrite IH.
    destruct (scan_right (core_step cell) xs s) as [ys s1].
    unfold bind at 1. rewrite run_core_run.
    destruct (core_step cell x s1) as [y sf].
    unfold ret. rewrite log_log.
    f_equal. f_equal. simpl. now rewrite repeat_cons.
Qed.

End Loops.

(* ================================================================== *)
(** * Facts about the axes of a tensor *)

Section Axes.
Context {A : Type}.

Lemma column_reverse (n i : nat) (x : list (list A)) :
  Forall (fun r => length r = n) x -> i < n ->
  column i (tf.reverse x) = column (n - S i) x.
Proof.
  intros Hx Hi. induction Hx as [|r x Hr Hx IH]; [reflexivity|].
  unfold tf.reverse, column in *. simpl. rewrite IH.
  rewrite nth_error_rev, Hr.
  destruct (Nat.ltb_spec i n); [reflexivity | lia].
Qed.

Lemma rev_seq n : rev (seq 0 n) = map (fun i => n - S i) (seq 0 n).
Proof.
  induction n as [|n IH]; [reflexivity|].
  rewrite seq_S at 1. rewrite rev_app_distr. simpl rev. simpl app.
  rewrite IH. simpl seq. simpl map. f_equal; [lia|].
  rewrite <- seq_shift, map_map. apply map_ext. intros i. lia.
Qed.

Lemma transpose_reverse n (x : list (list A)) :
  Forall (fun r => length r = n) x ->
  transpose n (tf.reverse x) = rev (transpose n x).
Proof.
  intros Hx. unfold transpose.
  rewrite <- map_rev, rev_seq, map_map.
  apply map_ext_in. intros i Hi. apply in_seq in Hi.
  apply column_reverse; [assumption | lia].
Qed.

Lemma column_rev_outer i (y : list (list A)) :
  column i (rev y) = rev (column i y).
Proof.
  unfold column. induction y as [|r y IH]; [reflexivity|].
  simpl. rewrite flat_map_app, rev_app_distr, IH. simpl.
  rewrite app_nil_r. destruct (nth_error r i); reflexivity.
Qed.

Lemma reverse_transpose n (y : list (list A)) :
  tf.reverse (transpose n y) = transpose n (rev y).
Proof.
  unfold tf.reverse, transpose. rewrite map_map.
  apply map_ext. intros i. symmetry. apply column_rev_outer.
Qed.

Lemma time_steps_reverse (x : list (list A)) :
  time_steps (tf.reverse x) = time_steps x.
Proof. destruct x as [|r x]; [reflexivity|]. simpl. apply length_rev. Qed.

Lemma length_reverse (x : list (list A)) :
  length (tf.reverse x) = length x.
Proof. apply length_map. Qed.

Lemma length_transpose n (x : list (list A)) : length (transpose n x) = n.
Proof. unfold transpose. now rewrite length_map, length_seq. Qed.

End Axes.

Section Round_trip.
Context {A : Type}.

Lemma nth_error_column (n j i : nat) (x : list (list A)) :
  Forall (fun r => length r = n) x -> j < n ->
  nth_error (column j x) i
  = match nth_error x i with
    | Some r => nth_error r j
    | None => None
    end.
Proof.
  intros Hx Hj. revert i.
  induction Hx as [|r x Hr Hx IH]; intros i.
  - now destruct i.
  - unfold column in *. simpl.
    destruct (nth_error r j) as [a|] eqn:E.
    + destruct i as [|i]; simpl; [now rewrite E | apply IH].
    + apply nth_error_None in E. lia.
Qed.

Lemma collect_row (r : list A) :
  flat_map (fun j => match nth_error r j with
                     | Some a => [a]
                     | None => []
                     end) (seq 0 (length r)) = r.
Proof.
  induction r as [|a r IH]; [reflexivity|].
  simpl length. simpl seq. simpl flat_map.
  rewrite <- seq_shift, flat_map_concat_map, map_map.
  rewrite <- flat_map_concat_map. simpl. now rewrite IH.
Qed.

Lemma transpose_involutive (x : list (list A)) :
  rectangular x ->
  transpose (length x) (transpose (time_steps x) x) = x.
Proof.
  intros Hx. unfold rectangular in Hx.
  set (n := time_steps x) in *. clearbody n.
  apply nth_error_ext. intros i. unfold transpose at 1.
  rewrite nth_error_map, nth_error_seq.
  destruct (Nat.ltb_spec i (length x)) as [Hi|Hi].
  - destruct (nth_error x i) as [r|] eqn:E;
      [|apply nth_error_None in E; lia].
    simpl. f_equal.
    assert (Hr : length r = n).
    { rewrite Forall_forall in Hx. apply Hx. eapply nth_error_In; eauto. }
    unfold column at 1, transpose.
    rewrite flat_map_concat_map, map_map, <- flat_map_concat_map.
    etransitivity; [|apply collect_row]. rewrite Hr.
    rewrite !flat_map_concat_map. f_equal.
    apply map_ext_in. intros j Hj. apply in_seq in Hj.
    rewrite (@nth_error_column n); [now rewrite E | assumption | lia].
  - simpl. symmetry. now apply nth_error_None.
Qed.

End Round_trip.

Section Sweeps.
Context {A B St : Type}.
Variable cell : RNNCore (list A) (list B) St.

Local Notation step_event := (Call (Core (core_name cell))).

Lemma dynamic_rnn_run x s g :
  tf.nn.dynamic_rnn cell x s g
  = (Ok (forward_sweep cell x s),
     log (repeat step_event (time_steps x)) g).
Proof.
  unfold tf.nn.dynamic_rnn, forward_sweep, bind.
  rewrite rnn_loop_run, length_transpose.
  now destruct (scan_left _ _ _).
Qed.

Lemma backward_dynamic_rnn_run x s g :
  backward_dynamic_rnn cell x s g
  = (Ok (backward_sweep cell x s),
     log (repeat step_event (time_steps x)) g).
Proof.
  unfold backward_dynamic_rnn, backward_sweep, bind.
  rewrite rnn_loop_backward_run, length_transpose.
  now destruct (scan_right _ _ _).
Qed.

Lemma reverse_dynamic_rnn_run x s g :
  rectangular x ->
  util.reverse_dynamic_rnn cell x s g
  = (Ok (backward_sweep cell x s),
     log (repeat step_event (time_steps x)) g).
Proof.
  intros Hx. unfold util.reverse_dynamic_rnn, bind at 1.
  rewrite dynamic_rnn_run. unfold forward_sweep, backward_sweep.
  rewrite time_steps_reverse, length_reverse.
  rewrite (transpose_reverse Hx), scan_left_rev.
  destruct (scan_right _ _ _) as [ys sf]. unfold ret.
  now rewrite reverse_transpose, rev_involutive.
Qed.

End Sweeps.

Lemma scan_right_identity {X S} (xs : list X) (s : S) :
  scan_right (fun x s => (x, s)) xs s = (xs, s).
Proof. induction xs as [|x xs IH]; simpl; [reflexivity | now rewrite IH]. Qed.

(* ================================================================== *)
(** * The backward sweep *)

(** C9.  Reversing a sequence along the time axis, running a forward
    recurrent sweep and reversing the output again is the same
    computation as a genuine right-to-left sweep: same outputs, same
    final state, same calls of the cell.  With a cell whose step is the
    identity the round trip hands the sequence back, whatever the
    weights. *)
Theorem reverse_sweep_is_backward_sweep {A : Type}
    (inputs : list (list A)) :
  rectangular inputs ->
  (forall (B St : Type) (cell : RNNCore (list A) (list B) St)
          (initial : St) (g : Graph),
      util.reverse_dynamic_rnn cell inputs initial g
      = backward_dynamic_rnn cell inputs initial g)
  /\ (forall (St : Type) (name : string) (init : nat -> St)
             (initial : St) (g : Graph),
      util.reverse_dynamic_rnn (identity_core name init) inputs initial g
      = backward_dynamic_rnn (identity_core name init) inputs initial g
      /\ fst (util.reverse_dynamic_rnn (identity_core name init)
                inputs initial g)
         = Ok (inputs, initial)).
Proof.
  intros Hx. split.
  - intros B St cell initial g.
    now rewrite reverse_dynamic_rnn_run, backward_dynamic_rnn_run.
  - intros St name init initial g.
    rewrite reverse_dynamic_rnn_run, backward_dynamic_rnn_run by assumption.
    split; [reflexivity|]. simpl. unfold backward_sweep. simpl.
    rewrite scan_right_identity. now rewrite transpose_involutive.
Qed.

Lemma reverse_sweep_is_backward_sweep_witness :
  rectangular Demo.two_by_three
  /\ util.reverse_dynamic_rnn (Demo.sum_core "f_core")
       Demo.two_by_three 0 Demo.empty_graph
     = backward_dynamic_rnn (Demo.sum_core "f_core")
         Demo.two_by_three 0 Demo.empty_graph.
Proof.
  assert (H : rectangular Demo.two_by_three) by (repeat constructor).
  split; [exact H|].
  apply (proj1 (reverse_sweep_is_backward_sweep H)).
Defined.

Example reverse_sweep_runs :
  fst (util.reverse_dynamic_rnn (Demo.sum_core "f_core")
         Demo.two_by_three 0 Demo.empty_graph)
  = Ok ([[[5]; [4]; [3]]; [[8]; [7]; [6]]], 6).
Proof. reflexivity. Qed.

(* ================================================================== *)
(** * ObsDist *)

(** C6.  [ObsDist.next_state] hands the cell state back unchanged,
    whatever the event, also without one. *)
Theorem ObsDist_next_state_identity (R St DParams ODist E : Type) :
  (forall (self : vae_seq.ObsDist R St DParams ODist)
          (d_state : St) (event : option E),
      vae_seq.ObsDist_next_state self d_state event = d_state)
  /\ (forall (self : vaeseq.ObsDist R St DParams ODist)
             (d_state : St) (event : option E),
      vaeseq.ObsDist_next_state self d_state event = d_state).
Proof. split; reflexivity. Qed.

(** C5.  [ObsDist.step] concatenates the context features, feeds them
    through the cell "d", decodes (deterministic output, latent) into
    distribution parameters and returns them with the cell's updated
    state; the next state does not depend on the latent. *)
Theorem ObsDist_step_threads_cell_state
    (R St DParams ODist : Type) (HR : Scalar R)
    (context : Nest (list (list R))) (d_state : St) (g : Graph) :
  (forall (self : vae_seq.ObsDist R St DParams ODist) latent,
      vae_seq.ObsDist_build self (context, latent) d_state g
      = obs_step (vae_seq.od_d_core self) (vae_seq.od_obs_decoder self)
          context latent d_state g)
  /\ (forall (self : vaeseq.ObsDist R St DParams ODist) latent,
      vaeseq.ObsDist_build self (context, latent) d_state g
      = obs_step (vaeseq.od_d_core self) (vaeseq.od_obs_decoder self)
          context latent d_state g)
  /\ (forall (d_core : RNNCore (list (list R)) (list (list R)) St)
             (obs_decoder : ObsDecoderT (list (list R)) DParams ODist)
             latent1 latent2,
      state_of (obs_step d_core obs_decoder context latent1 d_state g)
      = state_of (obs_step d_core obs_decoder context latent2 d_state g))
  /\ (forall (d_core : RNNCore (list (list R)) (list (list R)) St)
             (obs_decoder : ObsDecoderT (list (list R)) DParams ODist)
             latent features,
      value_of (util.concat_features context g) = Some features ->
      state_of (obs_step d_core obs_decoder context latent d_state g)
      = Some (snd (core_step d_core features d_state))).
Proof.
  assert (Hstep : forall (d_core : RNNCore (list (list R)) (list (list R)) St)
      (obs_decoder : ObsDecoderT (list (list R)) DParams ODist) latent,
      (x <- util.concat_features context ;;
       ' (d_out, d_state0) <- run_core d_core x d_state ;;
       params <- call ObsDecoder (dec_call obs_decoder) (d_out, latent) ;;
       ret (params, d_state0)) g
      = obs_step d_core obs_decoder context latent d_state g).
  { intros d_core obs_decoder latent. unfold obs_step, bind at 1.
    destruct (util.concat_features context g) as [[features|e] g1];
      [|reflexivity].
    unfold bind at 1. rewrite run_core_run.
    destruct (core_step d_core features d_state) as [d_out s1].
    unfold bind, call, tell, ret, log. simpl.
    now rewrite <- app_assoc. }
  repeat split.
  - intros self latent. apply Hstep.
  - intros self latent. apply Hstep.
  - intros d_core obs_decoder latent1 latent2. unfold obs_step, state_of.
    destruct (util.concat_features context g) as [[features|e] g1];
      [|reflexivity].
    now destruct (core_step d_core features d_state).
  - intros d_core obs_decoder latent features. unfold obs_step, state_of, value_of.
    destruct (util.concat_features context g) as [[features'|e] g1];
      simpl; [|discriminate].
    intros [= ->]. now destruct (core_step d_core features d_state).
Qed.

Lemma ObsDist_step_threads_cell_state_witness :
  value_of (util.concat_features
              (Tuple [Leaf [[1]; [2]]; Leaf [[3]; [4]]]) Demo.empty_graph)
  = Some [[1; 3]; [2; 4]]
  /\ state_of (obs_step (Demo.sum_core "d_core") Demo.decoder3
                 (Tuple [Leaf [[1]; [2]]; Leaf [[3]; [4]]])
                 [[7]; [8]] 10 Demo.empty_graph)
     = Some (snd (core_step (Demo.sum_core "d_core") [[1; 3]; [2; 4]] 10)).
Proof.
  split; [reflexivity|].
  apply (proj2 (proj2 (proj2
           (@ObsDist_step_threads_cell_state nat nat _ _ Demo.nat_scalar
              (Tuple [Leaf [[1]; [2]]; Leaf [[3]; [4]]]) 10
              Demo.empty_graph)))).
  reflexivity.
Defined.

Example ObsDist_build_runs :
  vaeseq.ObsDist_build
    (vaeseq.ObsDist_init (Demo.sum_core "d_core") Demo.decoder3)
    (Tuple [Leaf [[1]; [2]]; Leaf [[3]; [4]]], [[7]; [8]]) 10
    Demo.empty_graph
  = (Ok ([[11; 13]; [12; 14]; [7]; [8]], 12),
     mkGraph 0 [Call ConcatFeatures; Call (Core "d_core"); Call ObsDecoder]).
Proof. reflexivity. Qed.

(** C8, as the code has it.  [event_dtype] is the decoder's declared
    type in both packages.  [event_size] is the decoder's declared shape
    in package [vaeseq]; in package [vae_seq] it is the observation
    shape of the hyperparameters. *)
Theorem ObsDist_event_descriptors (R St DParams ODist : Type) :
  (forall self : vaeseq.ObsDist R St DParams ODist,
      vaeseq.ObsDist_event_size self
      = dec_event_size (vaeseq.od_obs_decoder self)
      /\ vaeseq.ObsDist_event_dtype self
         = dec_event_dtype (vaeseq.od_obs_decoder self))
  /\ (forall d_core (obs_decoder : ObsDecoderT _ DParams ODist),
      vaeseq.ObsDist_event_size
        (vaeseq.ObsDist_init (R := R) (St := St) d_core obs_decoder)
      = dec_event_size obs_decoder
      /\ vaeseq.ObsDist_event_dtype (vaeseq.ObsDist_init d_core obs_decoder)
         = dec_event_dtype obs_decoder)
  /\ (forall self : vae_seq.ObsDist R St DParams ODist,
      vae_seq.ObsDist_event_size self
      = obs_shape (vae_seq.od_hparams self)
      /\ vae_seq.ObsDist_event_dtype self
         = dec_event_dtype (vae_seq.od_obs_decoder self)).
Proof. repeat split. Qed.

(** C8 fails as stated: in package [vae_seq] the event size comes from
    the hyperparameters, not from the wrapped decoder. *)
Lemma ObsDist_event_size_counterexample :
  vae_seq.ObsDist_event_size
    (vae_seq.ObsDist_init Demo.hparams (Demo.sum_core "d_core")
       Demo.decoder3)
  <> dec_event_size Demo.decoder3.
Proof. discriminate. Qed.

(* ================================================================== *)
(** * LatentPrior *)

(** C7, as the code has it.  In package [vaeseq] the step returns the
    batch size read off the context's leading dimension, with the empty
    state; in package [vae_seq] it ignores the context and returns the
    empty parameters with the empty state. *)
Theorem LatentPrior_step_returns (C S : Type) :
  (forall (self : vaeseq.LatentPrior) (context : Nest (list C))
          (state : Nest S),
      vaeseq.LatentPrior_build self context state
      = (Leaf (util.batch_size_from_nested_tensors context), unit_nest))
  /\ (forall (t : list C),
      util.batch_size_from_nested_tensors (Leaf t) = Some (length t))
  /\ (forall (t : list C) (rest : list (Nest (list C))),
      util.batch_size_from_nested_tensors (Tuple (Leaf t :: rest))
      = Some (length t))
  /\ (forall (R : Type) (self : vae_seq.LatentPrior R)
             (context : Nest (list C)) (state : Nest S),
      vae_seq.LatentPrior_build self context state
      = (unit_nest, unit_nest)).
Proof. repeat split. Qed.

(** C7 fails as stated: in package [vae_seq] the parameters returned
    for a context of batch size 2 are the empty tuple, not the batch
    size. *)
Lemma LatentPrior_step_counterexample :
  fst (vae_seq.LatentPrior_build Demo.old_prior
         (Leaf [[1]; [2]]) (@unit_nest nat))
  <> Leaf (util.batch_size_from_nested_tensors (Leaf [[1]; [2]])).
Proof. discriminate. Qed.

Example LatentPrior_step_runs :
  vaeseq.LatentPrior_build Demo.new_prior
    (Tuple [Leaf [[1]; [2]]; Leaf [[3]; [4]]]) (Leaf 9)
  = (Leaf (Some 2), unit_nest).
Proof. reflexivity. Qed.

(** C10.  [LatentPrior] never accumulates state: [next_state] and the
    state returned by a step are the empty tuple for every state and
    event, so a rollout through the prior has the empty state after
    every time step. *)
Theorem LatentPrior_state_stays_empty (C S E : Type) :
  (forall (R : Type) (self : vae_seq.LatentPrior R)
          (state_arg : Nest S) (event : option E),
      vae_seq.LatentPrior_next_state self state_arg event = unit_nest)
  /\ (forall (self : vaeseq.LatentPrior)
             (state_arg : Nest S) (event : option E),
      vaeseq.LatentPrior_next_state self state_arg event = unit_nest)
  /\ (forall (R : Type) (self : vae_seq.LatentPrior R)
             (context : Nest (list C)) (state : Nest S),
      snd (vae_seq.LatentPrior_build self context state) = unit_nest)
  /\ (forall (self : vaeseq.LatentPrior)
             (context : Nest (list C)) (state : Nest S),
      snd (vaeseq.LatentPrior_build self context state) = unit_nest)
  /\ (forall (R : Type) (self : vae_seq.LatentPrior R)
             (inputs : list (Nest (list C) * option E)) (state : Nest S),
      Forall (eq unit_nest)
        (thread_states (vae_seq.LatentPrior_build self)
           (vae_seq.LatentPrior_next_state self) inputs state))
  /\ (forall (self : vaeseq.LatentPrior)
             (inputs : list (Nest (list C) * option E)) (state : Nest S),
      Forall (eq unit_nest)
        (thread_states (vaeseq.LatentPrior_build self)
           (vaeseq.LatentPrior_next_state self) inputs state)).
Proof.
  repeat split.
  - intros R self inputs. induction inputs as [|[context event] rest IH];
      intros state; simpl; constructor; [reflexivity | apply IH].
  - intros self inputs. induction inputs as [|[context event] rest IH];
      intros state; simpl; constructor; [reflexivity | apply IH].
Qed.

Example LatentPrior_rollout_runs :
  thread_states (vaeseq.LatentPrior_build Demo.new_prior)
    (vaeseq.LatentPrior_next_state Demo.new_prior)
    [(Leaf [[1]; [2]], Some 5); (Leaf [[3]; [4]], None)]
    (Tuple [Leaf 7; Leaf 8])
  = [unit_nest; unit_nest].
Proof. reflexivity. Qed.

(** C2, as the code has it.  In package [vaeseq], [dist(batch_size)]
    builds on every call a new diagonal Gaussian of shape
    [[batch_size, latent_size]] whose mean is all zeros and whose scale
    is all ones: two calls give two objects with the same parameters.
    In package [vae_seq] the Gaussian is built once, when the prior is
    constructed, with the batch size of the hyperparameters; [dist]
    ignores its argument and hands that one object back. *)
Theorem LatentPrior_dist_standard_normal (R : Type) (HR : Scalar R) :
  (forall (self : vaeseq.LatentPrior) (batch_size : nat)
          (name : option string) (g : Graph),
      vaeseq.LatentPrior_dist self batch_size name g
      = (Ok (mkMVN (next_id g)
               (vaeseq.name_or name (vaeseq.module_name self ++ "_dist"))
               (repeat (repeat (zero : R)
                          (latent_size (vaeseq.lp_hparams self)))
                  batch_size)
               (repeat (repeat (one : R)
                          (latent_size (vaeseq.lp_hparams self)))
                  batch_size)),
         mkGraph (S (next_id g))
           (trace g ++
            [Call LatentPriorDist;
             NewMVN (vaeseq.name_or name
                       (vaeseq.module_name self ++ "_dist"))
               (next_id g)])))
  /\ (forall (self : vaeseq.LatentPrior) (batch_size : nat)
             (name : option string) (g : Graph),
      exists (d1 d2 : MVNDiag (list (list R))) (g1 g2 : Graph),
        vaeseq.LatentPrior_dist self batch_size name g = (Ok d1, g1)
        /\ vaeseq.LatentPrior_dist self batch_size name g1 = (Ok d2, g2)
        /\ mvn_id d1 <> mvn_id d2
        /\ loc d1 = loc d2
        /\ scale_diag d1 = scale_diag d2
        /\ dims (loc d1)
           = repeat (latent_size (vaeseq.lp_hparams self)) batch_size)
  /\ (forall (hparams : HParams) (g : Graph),
      vae_seq.LatentPrior_init hparams g
      = (Ok (vae_seq.mkLatentPrior hparams
               (mkMVN (next_id g) "prior_z"
                  (repeat (repeat (zero : R) (latent_size hparams))
                     (batch_size hparams))
                  (repeat (repeat (one : R) (latent_size hparams))
                     (batch_size hparams)))),
         mkGraph (S (next_id g)) (trace g ++ [NewMVN "prior_z" (next_id g)])))
  /\ (forall (P : Type) (self : vae_seq.LatentPrior R) (params : P)
             (g : Graph),
      vae_seq.LatentPrior_dist self params g
      = (Ok (vae_seq.lp_dist self),
         mkGraph (next_id g) (trace g ++ [Call LatentPriorDist]))).
Proof.
  assert (Hdist : forall (self : vaeseq.LatentPrior) (batch_size : nat)
                         (name : option string) (g : Graph),
      vaeseq.LatentPrior_dist self batch_size name g
      = (Ok (mkMVN (next_id g)
               (vaeseq.name_or name (vaeseq.module_name self ++ "_dist"))
               (repeat (repeat (zero : R)
                          (latent_size (vaeseq.lp_hparams self)))
                  batch_size)
               (repeat (repeat (one : R)
                          (latent_size (vaeseq.lp_hparams self)))
                  batch_size)),
         mkGraph (S (next_id g))
           (trace g ++
            [Call LatentPriorDist;
             NewMVN (vaeseq.name_or name
                       (vaeseq.module_name self ++ "_dist"))
               (next_id g)]))).
  { intros self batch_size name g.
    unfold vaeseq.LatentPrior_dist, tf.distributions.MultivariateNormalDiag,
      bind, tell, fresh, ret, tf.zeros, tf.ones, tf.set_shape. simpl.
    now rewrite <- app_assoc. }
  split; [exact Hdist|]. split; [|split].
  - intros self batch_size name g.
    eexists _, _, _, _.
    split; [apply Hdist|]. split; [apply Hdist|]. simpl.
    split; [lia|]. split; [reflexivity|]. split; [reflexivity|].
    unfold dims. rewrite map_repeat. now rewrite repeat_length.
  - intros hparams g. reflexivity.
  - intros P self params g. reflexivity.
Qed.

(** C2 fails as stated: in package [vae_seq] the prior built for the
    hyperparameters' batch size 4 answers a request for batch size 2
    with its one stored Gaussian of 4 rows, the same object on every
    call. *)
Lemma LatentPrior_dist_counterexample :
  fst Demo.old_prior_built = Ok Demo.old_prior
  /\ exists d : MVNDiag (list (list nat)),
       value_of (vae_seq.LatentPrior_dist Demo.old_prior 2
                   (snd Demo.old_prior_built)) = Some d
       /\ value_of (vae_seq.LatentPrior_dist Demo.old_prior 2
                      (snd (vae_seq.LatentPrior_dist Demo.old_prior 2
                              (snd Demo.old_prior_built)))) = Some d
       /\ length (loc d) <> 2.
Proof.
  split; [reflexivity|].
  exists (vae_seq.lp_dist Demo.old_prior).
  split; [reflexivity|]. split; [reflexivity|]. simpl. lia.
Qed.

Example LatentPrior_dist_runs :
  value_of (vaeseq.LatentPrior_dist Demo.new_prior 2 None Demo.empty_graph)
  = Some (mkMVN 0 "latent_prior_dist"
            [[0; 0; 0]; [0; 0; 0]] [[1; 1; 1]; [1; 1; 1]]).
Proof. reflexivity. Qed.

(* ================================================================== *)
(** * Facts about concatenation along the last axis *)

Section Concatenation.
Context {R : Type} `{Scalar R}.

Local Notation cat1 := (fun u v : list R => Ok (u ++ v)).
Local Notation cat2 := (zip_concat cat1).
Local Notation cat3 := (zip_concat cat2).

Lemma concat_last_rank3 (a b : list (list (list R))) :
  concat_last a b = cat3 a b.
Proof. reflexivity. Qed.

Lemma cat2_ok (a b : list (list R)) :
  length a = length b -> cat2 a b = Ok (zip_with (@app R) a b).
Proof.
  revert b. induction a as [|x a IH]; intros [|y b] Hlen;
    try discriminate; [reflexivity|].
  simpl in *. rewrite IH by lia. reflexivity.
Qed.

Lemma cat2_inv (a b c : list (list R)) :
  cat2 a b = Ok c -> length a = length b /\ length c = length a.
Proof.
  revert b c. induction a as [|x a IH]; intros [|y b] c; simpl;
    try discriminate.
  - intros [= <-]. split; reflexivity.
  - destruct (zip_concat cat1 a b) as [zs|e] eqn:E; [|discriminate].
    intros [= <-]. apply IH in E. simpl. split; lia.
Qed.

Lemma cat2_err (a b : list (list R)) e : cat2 a b = Raise e -> e = dim_error.
Proof.
  revert b. induction a as [|x a IH]; intros [|y b]; simpl;
    try discriminate; try (now intros [= <-]).
  destruct (zip_concat cat1 a b) as [zs|e'] eqn:E; [discriminate|].
  intros [= <-]. eapply IH; eassumption.
Qed.

Lemma length_zip_with {A B C} (f : A -> B -> C) xs ys :
  length xs = length ys -> length (zip_with f xs ys) = length xs.
Proof.
  revert ys. induction xs as [|x xs IH]; intros [|y ys] Hlen;
    try discriminate; [reflexivity|].
  simpl in *. rewrite IH; lia.
Qed.

Lemma cat3_ok (a b : list (list (list R))) :
  dims a = dims b ->
  cat3 a b = Ok (join_features a b) /\ dims (join_features a b) = dims a.
Proof.
  unfold join_features, dims. revert b.
  induction a as [|x a IH]; intros [|y b] Hd; try discriminate;
    [split; reflexivity|].
  simpl in *. injection Hd as Hxy Hab.
  rewrite (cat2_ok _ _ Hxy).
  destruct (IH _ Hab) as [-> Hj]. split; [reflexivity|].
  now rewrite Hj, length_zip_with.
Qed.

Lemma cat3_inv (a b c : list (list (list R))) :
  cat3 a b = Ok c -> dims a = dims b /\ dims c = dims a.
Proof.
  unfold dims. revert b c.
  induction a as [|x a IH]; intros [|y b] c; simpl; try discriminate.
  - intros [= <-]. split; reflexivity.
  - destruct (cat2 x y) as [z|e] eqn:Exy; [|discriminate].
    destruct (zip_concat cat2 a b) as [zs|e] eqn:E; [|discriminate].
    intros [= <-]. apply cat2_inv in Exy. apply IH in E. simpl.
    destruct Exy as [-> ->], E as [-> ->]. split; reflexivity.
Qed.

Lemma cat3_err (a b : list (list (list R))) e :
  cat3 a b = Raise e -> e = dim_error.
Proof.
  revert b. induction a as [|x a IH]; intros [|y b]; simpl;
    try discriminate; try (now intros [= <-]).
  destruct (cat2 x y) as [z|e'] eqn:Exy.
  - destruct (zip_concat cat2 a b) as [zs|e''] eqn:E; [discriminate|].
    intros [= <-]. eapply IH; eassumption.
  - intros [= <-]. eapply cat2_err; eassumption.
Qed.

Lemma concat_all_ok (t : list (list (list R))) ts :
  Forall (fun u => dims u = dims t) ts ->
  util.concat_all t ts = Ok (fold_left join_features ts t)
  /\ dims (fold_left join_features ts t) = dims t.
Proof.
  revert t. induction ts as [|u ts IH]; intros t Hts; simpl;
    [split; reflexivity|].
  inversion Hts as [|? ? Hu Hrest]; subst.
  destruct (cat3_ok t u (eq_sym Hu)) as [-> Hj].
  destruct (IH (join_features t u)) as [-> Hd].
  - rewrite Hj. assumption.
  - split; [reflexivity | congruence].
Qed.

Lemma concat_all_inv (t : list (list (list R))) ts r :
  util.concat_all t ts = Ok r -> Forall (fun u => dims u = dims t) ts.
Proof.
  revert t. induction ts as [|u ts IH]; intros t; simpl; [constructor|].
  destruct (cat3 t u) as [acc|e] eqn:E; [|discriminate].
  intros Hr. apply cat3_inv in E. destruct E as [Htu Hacc].
  constructor; [congruence|].
  apply IH in Hr. rewrite Hacc in Hr. assumption.
Qed.

Lemma concat_all_err (t : list (list (list R))) ts e :
  util.concat_all t ts = Raise e -> e = dim_error.
Proof.
  revert t. induction ts as [|u ts IH]; intros t; simpl; [discriminate|].
  destruct (cat3 t u) as [acc|e'] eqn:E.
  - apply IH.
  - intros [= <-]. eapply cat3_err; eassumption.
Qed.

Lemma flatten_pair (contexts : Nest (list (list (list R)))) enc :
  flatten (Tuple [contexts; Leaf enc]) = flatten contexts ++ [enc].
Proof. reflexivity. Qed.

(** Aligned pieces: the concatenation succeeds and is the per-timestep
    join. *)
Lemma concat_features_aligned contexts (enc : list (list (list R))) g :
  Forall (fun c => dims c = dims enc) (flatten contexts) ->
  util.concat_features (Tuple [contexts; Leaf enc]) g
  = (Ok (join_all (flatten contexts ++ [enc])), log [Call ConcatFeatures] g)
  /\ dims (join_all (flatten contexts ++ [enc])) = dims enc.
Proof.
  intros Hc. unfold util.concat_features, bind. rewrite tell_run.
  rewrite flatten_pair.
  destruct (flatten contexts) as [|c cs]; [split; reflexivity|].
  change ((c :: cs) ++ [enc]) with (c :: (cs ++ [enc])).
  cbv beta iota. unfold lift.
  inversion Hc as [|? ? Hc0 Hcs]; subst.
  destruct (concat_all_ok c (ts := cs ++ [enc])) as [-> Hd].
  - apply Forall_app. split.
    + eapply Forall_impl; [|exact Hcs]. simpl. congruence.
    + constructor; [congruence | constructor].
  - split; [reflexivity|]. simpl. congruence.
Qed.

(** A misaligned piece: the concatenation raises. *)
Lemma concat_features_misaligned contexts (enc : list (list (list R))) g :
  (exists c, In c (flatten contexts) /\ dims c <> dims enc) ->
  util.concat_features (Tuple [contexts; Leaf enc]) g
  = (Raise dim_error, log [Call ConcatFeatures] g).
Proof.
  intros (c & Hin & Hne). unfold util.concat_features, bind.
  rewrite tell_run, flatten_pair.
  destruct (flatten contexts) as [|c0 cs]; [contradiction|].
  change ((c0 :: cs) ++ [enc]) with (c0 :: (cs ++ [enc])).
  cbv beta iota. unfold lift.
  destruct (util.concat_all c0 (cs ++ [enc])) as [r|e] eqn:E.
  - exfalso. apply concat_all_inv in E.
    apply Forall_app in E. destruct E as [Hcs Henc].
    inversion Henc as [|? ? He _]; subst.
    destruct Hin as [<-|Hin]; [congruence|].
    rewrite Forall_forall in Hcs. apply Hcs in Hin. congruence.
  - apply concat_all_err in E. now subst.
Qed.

End Concatenation.

(* ================================================================== *)
(** * Facts about shapes *)

Section Shapes.
Context {A : Type}.

Lemma rectangular_uniform n (x : list (list A)) :
  Forall (fun r => length r = n) x -> rectangular x.
Proof.
  intros Hx. unfold rectangular. destruct x as [|r x]; [constructor|].
  simpl. inversion Hx; subst. assumption.
Qed.

Lemma time_steps_uniform n (x : list (list A)) :
  Forall (fun r => length r = n) x -> x <> [] -> time_steps x = n.
Proof.
  intros Hx Hne. destruct x as [|r x]; [contradiction|].
  inversion Hx; subst. reflexivity.
Qed.

Lemma time_steps_dims (x : list (list A)) : time_steps x = hd 0 (dims x).
Proof. now destruct x. Qed.

Lemma length_dims (x : list (list A)) : length (dims x) = length x.
Proof. apply length_map. Qed.

Lemma rectangular_dims (x : list (list A)) :
  rectangular x <-> Forall (fun n => n = hd 0 (dims x)) (dims x).
Proof.
  unfold rectangular. rewrite time_steps_dims.
  generalize (hd 0 (dims x)). intros n. unfold dims.
  rewrite Forall_map. reflexivity.
Qed.

Lemma length_column n i (x : list (list A)) :
  Forall (fun r => length r = n) x -> i < n ->
  length (column i x) = length x.
Proof.
  intros Hx Hi. induction Hx as [|r x Hr Hx IH]; [reflexivity|].
  unfold column in *. simpl. rewrite length_app, IH.
  destruct (nth_error r i) eqn:E; [reflexivity|].
  apply nth_error_None in E. lia.
Qed.

Lemma transpose_shape n (x : list (list A)) :
  Forall (fun r => length r = n) x ->
  Forall (fun s => length s = length x) (transpose n x).
Proof.
  intros Hx. unfold transpose. rewrite Forall_map, Forall_forall.
  intros i Hi. apply in_seq in Hi. apply (length_column Hx). lia.
Qed.

Lemma reshape2_concat n (x : list (list A)) :
  Forall (fun r => length r = n) x ->
  reshape2 (length x) n (concat x) = x.
Proof.
  intros Hx. induction Hx as [|r x Hr Hx IH]; [reflexivity|].
  simpl. rewrite firstn_app, skipn_app, <- Hr.
  rewrite firstn_all, skipn_all, Nat.sub_diag. simpl.
  rewrite app_nil_r. f_equal. rewrite Hr. exact IH.
Qed.

Lemma length_concat_uniform n (x : list (list A)) :
  Forall (fun r => length r = n) x -> length (concat x) = length x * n.
Proof.
  intros Hx. induction Hx as [|r x Hr Hx IH]; [reflexivity|].
  simpl. rewrite length_app, IH, Hr. reflexivity.
Qed.

Lemma dims_uniform n (x : list (list A)) :
  Forall (fun r => length r = n) x -> dims x = repeat n (length x).
Proof.
  intros Hx. induction Hx as [|r x Hr Hx IH]; [reflexivity|].
  unfold dims in *. simpl. now rewrite IH, Hr.
Qed.

Lemma dims_reshape2 rows cols (flat : list A) :
  rows * cols <= length flat ->
  dims (reshape2 rows cols flat) = repeat cols rows.
Proof.
  revert flat. induction rows as [|rows IH]; intros flat Hlen;
    [reflexivity|].
  unfold dims in *. simpl. rewrite IH.
  - f_equal. rewrite length_firstn. simpl in Hlen. lia.
  - rewrite length_skipn. simpl in Hlen. lia.
Qed.

End Shapes.

Lemma reshape2_map {A B} (f : A -> B) rows cols (flat : list A) :
  reshape2 rows cols (map f flat) = map (map f) (reshape2 rows cols flat).
Proof.
  revert flat. induction rows as [|rows IH]; intros flat; [reflexivity|].
  simpl. now rewrite firstn_map, skipn_map, IH.
Qed.

(** [BatchApply] of a module that treats every row of its batch alike
    applies it to every entry of the tensor. *)
Lemma BatchApply_rowwise {A B} (c : Callee) (module : list A -> list B)
    (f : A -> B) (x : list (list A)) (g : Graph) :
  (forall l, module l = map f l) -> rectangular x ->
  snt.BatchApply (call c module) x g
  = (Ok (map (map f) x), log [Call c] g).
Proof.
  intros Hrow Hx. unfold snt.BatchApply, bind. rewrite call_run.
  unfold ret. rewrite Hrow, reshape2_map.
  now rewrite (reshape2_concat Hx).
Qed.

(** [BatchApply] of a module that keeps the number of rows keeps the
    two leading axes. *)
Lemma BatchApply_dims {A B} (c : Callee) (module : list A -> list B)
    (x : list (list A)) (g : Graph) :
  (forall l, length (module l) = length l) -> rectangular x ->
  exists y, snt.BatchApply (call c module) x g = (Ok y, log [Call c] g)
            /\ dims y = dims x.
Proof.
  intros Hlen Hx. unfold snt.BatchApply, bind. rewrite call_run.
  eexists. split; [reflexivity|].
  rewrite dims_reshape2, (dims_uniform Hx); [reflexivity|].
  rewrite Hlen, (length_concat_uniform Hx). lia.
Qed.

Section Sweep_shapes.
Context {A B St : Type}.
Variable cell : RNNCore (list A) (list B) St.
Hypothesis Hcell : keeps_batch cell.

Lemma scan_left_batch b xs s :
  Forall (fun x => length x = b) xs ->
  Forall (fun y => length y = b) (fst (scan_left (core_step cell) xs s)).
Proof.
  intros Hxs. revert s. induction Hxs as [|x xs Hx Hxs IH]; intros s;
    simpl; [constructor|].
  specialize (Hcell x s). destruct (core_step cell x s) as [y s1].
  specialize (IH s1). destruct (scan_left (core_step cell) xs s1).
  simpl in *. constructor; [congruence | assumption].
Qed.

Lemma scan_right_batch b xs s :
  Forall (fun x => length x = b) xs ->
  Forall (fun y => length y = b) (fst (scan_right (core_step cell) xs s)).
Proof.
  intros Hxs. induction Hxs as [|x xs Hx Hxs IH]; simpl; [constructor|].
  destruct (scan_right (core_step cell) xs s) as [ys s1].
  specialize (Hcell x s1). destruct (core_step cell x s1) as [y sf].
  simpl in *. constructor; [congruence | assumption].
Qed.

Lemma forward_sweep_shape x s :
  rectangular x ->
  dims (fst (forward_sweep cell x s)) = dims x.
Proof.
  intros Hx. unfold forward_sweep.
  pose proof (scan_left_batch s (transpose_shape Hx)) as Hout.
  pose proof (scan_left_length (core_step cell)
                (transpose (time_steps x) x) s) as Hlen.
  destruct (scan_left _ _ _) as [outs sf]. simpl in *.
  rewrite length_transpose in Hlen.
  rewrite (dims_uniform (transpose_shape Hout)), length_transpose, Hlen.
  symmetry. apply (dims_uniform Hx).
Qed.

Lemma backward_sweep_shape x s :
  rectangular x ->
  dims (fst (backward_sweep cell x s)) = dims x.
Proof.
  intros Hx. unfold backward_sweep.
  pose proof (scan_right_batch s (transpose_shape Hx)) as Hout.
  pose proof (scan_right_length (core_step cell)
                (transpose (time_steps x) x) s) as Hlen.
  destruct (scan_right _ _ _) as [outs sf]. simpl in *.
  rewrite length_transpose in Hlen.
  rewrite (dims_uniform (transpose_shape Hout)), length_transpose, Hlen.
  symmetry. apply (dims_uniform Hx).
Qed.

End Sweep_shapes.

Lemma rectangular_of_dims {A B} (x : list (list A)) (y : list (list B)) :
  dims x = dims y -> rectangular y -> rectangular x.
Proof.
  intros Hd Hy. apply rectangular_dims. rewrite Hd.
  now apply rectangular_dims.
Qed.

Lemma time_steps_of_dims {A B} (x : list (list A)) (y : list (list B)) :
  dims x = dims y -> time_steps x = time_steps y.
Proof. intros Hd. now rewrite !time_steps_dims, Hd. Qed.

Lemma dims_map {A B} (f : A -> B) (x : list (list A)) :
  dims (map (map f) x) = dims x.
Proof.
  unfold dims. rewrite map_map. apply map_ext. intros r. apply length_map.
Qed.

(* ================================================================== *)
(** * The inference pass *)

Section Inference_run.
Context {R Obs St QParams QDist DParams ODist : Type} `{Scalar R}.
Variable sample : QDist -> list (list (list R)).
Variable calc_kl :
  HParams -> list (list (list R)) -> QDist
  -> MVNDiag (list (list (list R))) -> list (list R).
Variable encode : Obs -> list R.
Variable q_params : list R -> QParams.
Variable contexts : Nest (list (list (list R))).
Variable observed : list (list Obs).
Hypothesis Hobserved : rectangular observed.
Hypothesis Hcontexts :
  Forall (fun c => aligned c observed) (flatten contexts).

Lemma vae_seq_infer_latents_run
    (self : vae_seq.IndependentSequence R Obs St QParams QDist DParams ODist)
    (g : Graph) :
  (forall l, vae_seq._obs_encoder self l = map encode l) ->
  (forall l, q_call (vae_seq._q_z self) l = map q_params l) ->
  keeps_batch (vae_seq._e_core self) ->
  keeps_batch (vae_seq._f_core self) ->
  vae_seq.infer_latents sample calc_kl self contexts observed g
  = (Ok (inference_pass encode (vae_seq._e_core self)
           (vae_seq._f_core self) q_params (q_dist (vae_seq._q_z self))
           sample calc_kl (vae_seq._hparams self)
           (util.batch_size (vae_seq._hparams self)) (next_id g)
           (flatten contexts) observed),
     mkGraph (S (next_id g))
       (trace g ++
        inference_trace (core_name (vae_seq._e_core self))
          (core_name (vae_seq._f_core self))
          (time_steps observed) (next_id g))).
Proof.
  intros Henc Hq He Hf. unfold vae_seq.infer_latents.
  unfold bind at 1.
  rewrite (BatchApply_rowwise ObsEncoder _ encode) by assumption.
  pose proof (dims_map encode observed) as Hd_enc.
  unfold bind at 1.
  destruct (concat_features_aligned contexts (map (map encode) observed)
              (log [Call ObsEncoder] g)) as [-> Hd_feat].
  { eapply Forall_impl; [|exact Hcontexts]. unfold aligned. congruence. }
  rewrite Hd_enc in Hd_feat.
  set (features := join_all (flatten contexts ++ [map (map encode) observed]))
    in *.
  assert (Hfeat : rectangular features)
    by (eapply rectangular_of_dims; eassumption).
  unfold bind at 1. rewrite dynamic_rnn_run.
  pose proof (forward_sweep_shape He
                (initial_state (vae_seq._e_core self)
                   (util.batch_size (vae_seq._hparams self))) Hfeat) as Hd_e.
  set (e_run := forward_sweep (vae_seq._e_core self) features _) in *.
  destruct e_run as [e_outs e_final] eqn:Ee. simpl in Hd_e.
  assert (He_outs : rectangular e_outs)
    by (eapply rectangular_of_dims; eassumption).
  unfold bind at 1. rewrite reverse_dynamic_rnn_run by assumption.
  pose proof (backward_sweep_shape Hf
                (initial_state (vae_seq._f_core self)
                   (util.batch_size (vae_seq._hparams self))) He_outs) as Hd_f.
  set (f_run := backward_sweep (vae_seq._f_core self) e_outs _) in *.
  destruct f_run as [f_outs f_final] eqn:Ef. simpl in Hd_f.
  assert (Hf_outs : rectangular f_outs)
    by (eapply rectangular_of_dims; eassumption).
  unfold bind at 1.
  rewrite (BatchApply_rowwise LatentDecoder _ q_params) by assumption.
  rewrite (time_steps_of_dims _ _ Hd_feat).
  rewrite (time_steps_of_dims _ _ (eq_trans Hd_e Hd_feat)).
  rewrite !log_log.
  cbv [bind call tell ret tf.distributions.MultivariateNormalDiag
         fresh log].
  cbn [next_id trace mvn_id].
  f_equal.
  - unfold inference_pass. fold features. fold e_run. rewrite Ee.
    cbn [fst]. fold f_run. rewrite Ef. reflexivity.
  - f_equal. unfold inference_trace. rewrite <- !app_assoc. reflexivity.
Qed.

Lemma vaeseq_infer_latents_run
    (self : vaeseq.IndependentSequence R Obs St QParams QDist DParams ODist)
    (g : Graph) :
  (forall l, vaeseq._obs_encoder self l = map encode l) ->
  (forall l, q_call (vaeseq._q_z self) l = map q_params l) ->
  keeps_batch (vaeseq._e_core self) ->
  keeps_batch (vaeseq._f_core self) ->
  vaeseq.infer_latents sample calc_kl self contexts observed g
  = (Ok (inference_pass encode (vaeseq._e_core self)
           (vaeseq._f_core self) q_params (q_dist (vaeseq._q_z self))
           sample calc_kl (vaeseq._hparams self)
           (length observed) (next_id g)
           (flatten contexts) observed),
     mkGraph (S (next_id g))
       (trace g ++
        inference_trace (core_name (vaeseq._e_core self))
          (core_name (vaeseq._f_core self))
          (time_steps observed) (next_id g))).
Proof.
  intros Henc Hq He Hf. unfold vaeseq.infer_latents.
  unfold bind at 1.
  rewrite (BatchApply_rowwise ObsEncoder _ encode) by assumption.
  pose proof (dims_map encode observed) as Hd_enc.
  unfold bind at 1.
  destruct (concat_features_aligned contexts (map (map encode) observed)
              (log [Call ObsEncoder] g)) as [-> Hd_feat].
  { eapply Forall_impl; [|exact Hcontexts]. unfold aligned. congruence. }
  rewrite Hd_enc in Hd_feat.
  set (features := join_all (flatten contexts ++ [map (map encode) observed]))
    in *.
  assert (Hfeat : rectangular features)
    by (eapply rectangular_of_dims; eassumption).
  unfold bind at 1. unfold bind at 1.
  change (initial_state_from (vaeseq._e_core self)
            (util.batch_size_from_nested_tensors (Leaf observed)))
    with (ret (initial_state (vaeseq._e_core self) (length observed))).
  unfold ret at 1. unfold bind at 1. rewrite dynamic_rnn_run.
  pose proof (forward_sweep_shape He
                (initial_state (vaeseq._e_core self)
                   (length observed)) Hfeat) as Hd_e.
  set (e_run := forward_sweep (vaeseq._e_core self) features _) in *.
  destruct e_run as [e_outs e_final] eqn:Ee. simpl in Hd_e.
  assert (He_outs : rectangular e_outs)
    by (eapply rectangular_of_dims; eassumption).
  unfold bind at 1.
  change (initial_state_from (vaeseq._f_core self)
            (util.batch_size_from_nested_tensors (Leaf observed)))
    with (ret (initial_state (vaeseq._f_core self) (length observed))).
  unfold ret at 1. unfold bind at 1.
  rewrite reverse_dynamic_rnn_run by assumption.
  pose proof (backward_sweep_shape Hf
                (initial_state (vaeseq._f_core self)
                   (length observed)) He_outs) as Hd_f.
  set (f_run := backward_sweep (vaeseq._f_core self) e_outs _) in *.
  destruct f_run as [f_outs f_final] eqn:Ef. simpl in Hd_f.
  assert (Hf_outs : rectangular f_outs)
    by (eapply rectangular_of_dims; eassumption).
  unfold bind at 1.
  rewrite (BatchApply_rowwise LatentDecoder _ q_params) by assumption.
  rewrite (time_steps_of_dims _ _ Hd_feat).
  rewrite (time_steps_of_dims _ _ (eq_trans Hd_e Hd_feat)).
  rewrite !log_log.
  cbv [bind call tell ret tf.distributions.MultivariateNormalDiag
         fresh log].
  cbn [next_id trace mvn_id].
  f_equal.
  - unfold inference_pass. fold features. fold e_run. rewrite Ee.
    cbn [fst]. fold f_run. rewrite Ef. reflexivity.
  - f_equal. unfold inference_trace. rewrite <- !app_assoc. reflexivity.
Qed.

End Inference_run.

Example infer_latents_old_runs :
  vae_seq.infer_latents Demo.sample Demo.calc_kl Demo.old_vae
    (Leaf Demo.two_by_three) Demo.observed Demo.empty_graph
  = (Ok ([[[28; 29]; [31; 32]; [34; 35]]; [[37; 38]; [40; 41]; [43; 44]]],
         [[57; 63; 69]; [75; 81; 87]]),
     mkGraph 1 (inference_trace "e_core" "f_core" 3 0)).
Proof. vm_compute. reflexivity. Qed.

Example infer_latents_new_runs :
  vaeseq.infer_latents Demo.sample Demo.calc_kl Demo.new_vae
    (Leaf Demo.two_by_three) Demo.observed Demo.empty_graph
  = vae_seq.infer_latents Demo.sample Demo.calc_kl Demo.old_vae
      (Leaf Demo.two_by_three) Demo.observed Demo.empty_graph.
Proof. vm_compute. reflexivity. Qed.

Example infer_latents_misaligned_runs :
  vaeseq.infer_latents Demo.sample Demo.calc_kl Demo.new_vae
    (Leaf Demo.short_context) Demo.observed Demo.empty_graph
  = (Raise dim_error, mkGraph 0 [Call ObsEncoder; Call ConcatFeatures]).
Proof. vm_compute. reflexivity. Qed.

(* ================================================================== *)
(** * Reading the trace of an inference pass *)

Lemma emitted_app n tr g : emitted g (mkGraph n (trace g ++ tr)) = tr.
Proof.
  unfold emitted. simpl.
  now rewrite skipn_app, skipn_all, Nat.sub_diag.
Qed.

Lemma kl_prior_calls c n rest :
  kl_prior (repeat (Call c) n ++ rest) = kl_prior rest.
Proof. induction n as [|n IH]; [reflexivity | exact IH]. Qed.

Lemma existsb_calls (f : Event -> bool) c n rest :
  f (Call c) = false ->
  existsb f (repeat (Call c) n ++ rest) = existsb f rest.
Proof.
  intros Hf. induction n as [|n IH]; [reflexivity|].
  simpl. now rewrite Hf, IH.
Qed.

Lemma inference_trace_prior e_name f_name steps prior_id :
  prior_built_inline (inference_trace e_name f_name steps prior_id) = true
  /\ prior_from_latent_prior (inference_trace e_name f_name steps prior_id)
     = false.
Proof.
  unfold prior_built_inline, prior_from_latent_prior, inference_trace.
  cbn [app kl_prior existsb builds_p_zs calls_latent_prior orb].
  rewrite !kl_prior_calls. cbn [kl_prior].
  rewrite !existsb_calls by reflexivity.
  cbn. rewrite Nat.eqb_refl. split; reflexivity.
Qed.

Lemma keeps_batch_sum_core name : keeps_batch (Demo.sum_core name).
Proof. intros x s. apply length_map. Qed.

(* ================================================================== *)
(** * IndependentSequence.infer_latents *)

(** C1.  On contexts and observations with matching batch and time
    axes, [infer_latents] is the inference pass of the specification:
    every observation is encoded on its own, context and encoding are
    concatenated per time step, cell "e" sweeps left to right and cell
    "f" right to left over all of e's outputs, each from its default
    initial state, the latent decoder turns every fused output into the
    posterior, one latent per time step is drawn, the prior is the
    zero-mean unit-scale Gaussian shaped like the latents, and the pair
    (latents, divergences) is returned; the calls happen in that order.
    The default initial states are those for the batch size of the
    hyperparameters in package [vae_seq], whatever the number of rows
    of the observations, and those for the number of rows of the
    observations in package [vaeseq].  The encoder and the latent
    decoder act on every row of their batch alike, and the cells keep
    the batch size. *)
Theorem infer_latents_is_inference_pass
    (R Obs St QParams QDist DParams ODist : Type) (HR : Scalar R)
    (sample : QDist -> list (list (list R)))
    (calc_kl : HParams -> list (list (list R)) -> QDist
               -> MVNDiag (list (list (list R))) -> list (list R))
    (encode : Obs -> list R) (q_params : list R -> QParams)
    (contexts : Nest (list (list (list R))))
    (observed : list (list Obs)) :
  rectangular observed ->
  Forall (fun c => aligned c observed) (flatten contexts) ->
  (forall (self : vae_seq.IndependentSequence
                    R Obs St QParams QDist DParams ODist) (g : Graph),
      (forall l, vae_seq._obs_encoder self l = map encode l) ->
      (forall l, q_call (vae_seq._q_z self) l = map q_params l) ->
      keeps_batch (vae_seq._e_core self) ->
      keeps_batch (vae_seq._f_core self) ->
      vae_seq.infer_latents sample calc_kl self contexts observed g
      = (Ok (inference_pass encode (vae_seq._e_core self)
               (vae_seq._f_core self) q_params
               (q_dist (vae_seq._q_z self)) sample calc_kl
               (vae_seq._hparams self)
               (util.batch_size (vae_seq._hparams self)) (next_id g)
               (flatten contexts) observed),
         mkGraph (S (next_id g))
           (trace g ++
            inference_trace (core_name (vae_seq._e_core self))
              (core_name (vae_seq._f_core self))
              (time_steps observed) (next_id g))))
  /\ (forall (self : vaeseq.IndependentSequence
                       R Obs St QParams QDist DParams ODist) (g : Graph),
      (forall l, vaeseq._obs_encoder self l = map encode l) ->
      (forall l, q_call (vaeseq._q_z self) l = map q_params l) ->
      keeps_batch (vaeseq._e_core self) ->
      keeps_batch (vaeseq._f_core self) ->
      vaeseq.infer_latents sample calc_kl self contexts observed g
      = (Ok (inference_pass encode (vaeseq._e_core self)
               (vaeseq._f_core self) q_params
               (q_dist (vaeseq._q_z self)) sample calc_kl
               (vaeseq._hparams self)
               (length observed) (next_id g)
               (flatten contexts) observed),
         mkGraph (S (next_id g))
           (trace g ++
            inference_trace (core_name (vaeseq._e_core self))
              (core_name (vaeseq._f_core self))
              (time_steps observed) (next_id g)))).
Proof.
  intros Hobserved Hcontexts. split.
  - intros self g Henc Hq He Hf.
    now apply vae_seq_infer_latents_run.
  - intros self g Henc Hq He Hf.
    now apply vaeseq_infer_latents_run.
Qed.

Lemma infer_latents_is_inference_pass_witness :
  rectangular Demo.observed
  /\ Forall (fun c => aligned c Demo.observed)
       (flatten (Leaf Demo.two_by_three))
  /\ vae_seq.infer_latents Demo.sample Demo.calc_kl Demo.old_vae
       (Leaf Demo.two_by_three) Demo.observed Demo.empty_graph
     = (Ok (inference_pass Demo.encode (Demo.sum_core "e_core")
              (Demo.sum_core "f_core") Demo.q_params (q_dist Demo.q_z)
              Demo.sample Demo.calc_kl Demo.small_hparams 2 0
              [Demo.two_by_three] Demo.observed),
        mkGraph 1 (inference_trace "e_core" "f_core" 3 0))
  /\ vaeseq.infer_latents Demo.sample Demo.calc_kl Demo.new_vae
       (Leaf Demo.two_by_three) Demo.observed Demo.empty_graph
     = (Ok (inference_pass Demo.encode (Demo.sum_core "e_core")
              (Demo.sum_core "f_core") Demo.q_params (q_dist Demo.q_z)
              Demo.sample Demo.calc_kl Demo.small_hparams 2 0
              [Demo.two_by_three] Demo.observed),
        mkGraph 1 (inference_trace "e_core" "f_core" 3 0))
  /\ rectangular [[1; 2; 3]]
  /\ Forall (fun c => aligned c [[1; 2; 3]])
       (flatten (Leaf [[[1]; [2]; [3]]]))
  /\ vae_seq.infer_latents Demo.sample Demo.calc_kl Demo.old_vae
       (Leaf [[[1]; [2]; [3]]]) [[1; 2; 3]] Demo.empty_graph
     = (Ok (inference_pass Demo.encode (Demo.sum_core "e_core")
              (Demo.sum_core "f_core") Demo.q_params (q_dist Demo.q_z)
              Demo.sample Demo.calc_kl Demo.small_hparams 2 0
              [[[[1]; [2]; [3]]]] [[1; 2; 3]]),
        mkGraph 1 (inference_trace "e_core" "f_core" 3 0)).
Proof.
  assert (H1 : rectangular Demo.observed) by (repeat constructor).
  assert (H2 : Forall (fun c => aligned c Demo.observed)
                 (flatten (Leaf Demo.two_by_three)))
    by (repeat constructor).
  assert (H3 : rectangular [[1; 2; 3]]) by (repeat constructor).
  assert (H4 : Forall (fun c => aligned c [[1; 2; 3]])
                 (flatten (Leaf [[[1]; [2]; [3]]])))
    by (repeat constructor).
  pose proof (@infer_latents_is_inference_pass
                nat nat nat nat (list (list nat)) (list (list nat))
                (list (list nat)) Demo.nat_scalar Demo.sample Demo.calc_kl
                Demo.encode Demo.q_params (Leaf Demo.two_by_three)
                Demo.observed H1 H2) as [Hold Hnew].
  pose proof (@infer_latents_is_inference_pass
                nat nat nat nat (list (list nat)) (list (list nat))
                (list (list nat)) Demo.nat_scalar Demo.sample Demo.calc_kl
                Demo.encode Demo.q_params (Leaf [[[1]; [2]; [3]]])
                [[1; 2; 3]] H3 H4) as [Hone _].
  split; [exact H1|]. split; [exact H2|]. split; [|split].
  - apply (Hold Demo.old_vae Demo.empty_graph).
    + intros l. reflexivity.
    + intros l. reflexivity.
    + apply keeps_batch_sum_core.
    + apply keeps_batch_sum_core.
  - apply (Hnew Demo.new_vae Demo.empty_graph).
    + intros l. reflexivity.
    + intros l. reflexivity.
    + apply keeps_batch_sum_core.
    + apply keeps_batch_sum_core.
  - split; [exact H3|]. split; [exact H4|].
    apply (Hone Demo.old_vae Demo.empty_graph).
    + intros l. reflexivity.
    + intros l. reflexivity.
    + apply keeps_batch_sum_core.
    + apply keeps_batch_sum_core.
Defined.

(** A model of package [vae_seq] configured for batch size 2, on
    observations of a single row: the sweeps start from the default
    states for batch size 2. *)
Example infer_latents_configured_batch_runs :
  vae_seq.infer_latents Demo.sample Demo.calc_kl Demo.old_vae
    (Leaf [[[1]; [2]; [3]]]) [[1; 2; 3]] Demo.empty_graph
  = (Ok ([[[22; 23]; [25; 26]; [28; 29]]],
         [[45; 51; 57]]),
     mkGraph 1 (inference_trace "e_core" "f_core" 3 0)).
Proof. vm_compute. reflexivity. Qed.

(** C4.  When some context tensor and the observations disagree on the
    batch or the time axis, [infer_latents] raises at the concatenation
    of context and encoded observations: the encoder and the
    concatenation are the only calls made, no step of cell "e" or "f"
    has run. *)
Theorem infer_latents_fails_fast
    (R Obs St QParams QDist DParams ODist : Type) (HR : Scalar R)
    (sample : QDist -> list (list (list R)))
    (calc_kl : HParams -> list (list (list R)) -> QDist
               -> MVNDiag (list (list (list R))) -> list (list R))
    (contexts : Nest (list (list (list R))))
    (observed : list (list Obs)) :
  rectangular observed ->
  (exists c, In c (flatten contexts) /\ ~ aligned c observed) ->
  (forall (self : vae_seq.IndependentSequence
                    R Obs St QParams QDist DParams ODist) (g : Graph),
      (forall l, length (vae_seq._obs_encoder self l) = length l) ->
      vae_seq.infer_latents sample calc_kl self contexts observed g
      = (Raise dim_error,
         mkGraph (next_id g)
           (trace g ++ [Call ObsEncoder; Call ConcatFeatures]))
      /\ forall name,
           ~ In (Call (Core name))
               (emitted g (snd (vae_seq.infer_latents sample calc_kl
                                  self contexts observed g))))
  /\ (forall (self : vaeseq.IndependentSequence
                       R Obs St QParams QDist DParams ODist) (g : Graph),
      (forall l, length (vaeseq._obs_encoder self l) = length l) ->
      vaeseq.infer_latents sample calc_kl self contexts observed g
      = (Raise dim_error,
         mkGraph (next_id g)
           (trace g ++ [Call ObsEncoder; Call ConcatFeatures]))
      /\ forall name,
           ~ In (Call (Core name))
               (emitted g (snd (vaeseq.infer_latents sample calc_kl
                                  self contexts observed g)))).
Proof.
  intros Hobserved (c & Hin & Hne).
  assert (Hold : forall (self : vae_seq.IndependentSequence
                    R Obs St QParams QDist DParams ODist) (g : Graph),
      (forall l, length (vae_seq._obs_encoder self l) = length l) ->
      vae_seq.infer_latents sample calc_kl self contexts observed g
      = (Raise dim_error,
         mkGraph (next_id g)
           (trace g ++ [Call ObsEncoder; Call ConcatFeatures]))).
  { intros self g Hlen. unfold vae_seq.infer_latents. unfold bind at 1.
    destruct (BatchApply_dims ObsEncoder _ g Hlen Hobserved)
      as (enc & -> & Hd).
    unfold bind at 1. rewrite concat_features_misaligned.
    - rewrite log_log. reflexivity.
    - exists c. split; [assumption|]. unfold aligned in Hne. congruence. }
  assert (Hnew : forall (self : vaeseq.IndependentSequence
                    R Obs St QParams QDist DParams ODist) (g : Graph),
      (forall l, length (vaeseq._obs_encoder self l) = length l) ->
      vaeseq.infer_latents sample calc_kl self contexts observed g
      = (Raise dim_error,
         mkGraph (next_id g)
           (trace g ++ [Call ObsEncoder; Call ConcatFeatures]))).
  { intros self g Hlen. unfold vaeseq.infer_latents. unfold bind at 1.
    destruct (BatchApply_dims ObsEncoder _ g Hlen Hobserved)
      as (enc & -> & Hd).
    unfold bind at 1. rewrite concat_features_misaligned.
    - rewrite log_log. reflexivity.
    - exists c. split; [assumption|]. unfold aligned in Hne. congruence. }
  split; intros self g Hlen.
  - split; [now apply Hold|]. rewrite (Hold self g Hlen).
    cbn [snd]. rewrite emitted_app. intros name [E|[E|[]]]; discriminate.
  - split; [now apply Hnew|]. rewrite (Hnew self g Hlen).
    cbn [snd]. rewrite emitted_app. intros name [E|[E|[]]]; discriminate.
Qed.

Lemma infer_latents_fails_fast_witness :
  rectangular Demo.observed
  /\ (exists c, In c (flatten (Leaf Demo.short_context))
                /\ ~ aligned c Demo.observed)
  /\ vae_seq.infer_latents Demo.sample Demo.calc_kl Demo.old_vae
       (Leaf Demo.short_context) Demo.observed Demo.empty_graph
     = (Raise dim_error, mkGraph 0 [Call ObsEncoder; Call ConcatFeatures]).
Proof.
  assert (H1 : rectangular Demo.observed) by (repeat constructor).
  assert (H2 : exists c, In c (flatten (Leaf Demo.short_context))
                         /\ ~ aligned c Demo.observed).
  { exists Demo.short_context. split; [left; reflexivity | discriminate]. }
  split; [exact H1|]. split; [exact H2|].
  apply (proj1 (@infer_latents_fails_fast
                  nat nat nat nat (list (list nat)) (list (list nat))
                  (list (list nat)) Demo.nat_scalar Demo.sample Demo.calc_kl
                  (Leaf Demo.short_context) Demo.observed H1 H2)
           Demo.old_vae Demo.empty_graph).
  intros l. apply length_map.
Defined.

Lemma inference_trace_kl_prior e_name f_name steps prior_id :
  kl_prior (inference_trace e_name f_name steps prior_id) = Some prior_id.
Proof.
  unfold inference_trace. cbn [app kl_prior].
  rewrite !kl_prior_calls. reflexivity.
Qed.

Lemma feature_dims_constant {R} (c : R) (x : list (list (list R))) :
  feature_dims (map (map (map (fun _ => c))) x) = feature_dims x.
Proof.
  unfold feature_dims. rewrite map_map. apply map_ext. intros r.
  rewrite map_map. apply map_ext. intros v. apply length_map.
Qed.

Lemma filled_with_constant {R} (c : R) (x : list (list (list R))) :
  filled_with c (map (map (map (fun _ => c))) x).
Proof.
  unfold filled_with. rewrite Forall_map. apply Forall_forall. intros r _.
  rewrite Forall_map. apply Forall_forall. intros v _.
  rewrite Forall_map. apply Forall_forall. intros a _. reflexivity.
Qed.

(** C3, as the code has it.  In both packages the prior of the
    divergence is built inline: the object handed to [calc_kl] is the
    Gaussian named [p_zs] built in this pass, its mean is
    [zeros_like(latents)] and its scale [ones_like(latents)], so both
    have exactly the shape of the sampled latents, the mean filled with
    zeros and the scale with ones.  Neither package calls
    [LatentPrior.dist] during inference, and the [LatentPrior]
    component the orchestrator holds has no influence on the pass. *)
Theorem prior_is_built_inline
    (R Obs St QParams QDist DParams ODist : Type) (HR : Scalar R)
    (sample : QDist -> list (list (list R)))
    (calc_kl : HParams -> list (list (list R)) -> QDist
               -> MVNDiag (list (list (list R))) -> list (list R))
    (encode : Obs -> list R) (q_params : list R -> QParams)
    (contexts : Nest (list (list (list R))))
    (observed : list (list Obs)) :
  rectangular observed ->
  Forall (fun c => aligned c observed) (flatten contexts) ->
  (forall (self : vae_seq.IndependentSequence
                    R Obs St QParams QDist DParams ODist) (g : Graph),
      (forall l, vae_seq._obs_encoder self l = map encode l) ->
      (forall l, q_call (vae_seq._q_z self) l = map q_params l) ->
      keeps_batch (vae_seq._e_core self) ->
      keeps_batch (vae_seq._f_core self) ->
      exists latents q_zs p_zs g',
        vae_seq.infer_latents sample calc_kl self contexts observed g
        = (Ok (latents,
               calc_kl (vae_seq._hparams self) latents q_zs p_zs), g')
        /\ mvn_name p_zs = "p_zs"
        /\ loc p_zs = zeros_like latents
        /\ scale_diag p_zs = ones_like latents
        /\ feature_dims (loc p_zs) = feature_dims latents
        /\ feature_dims (scale_diag p_zs) = feature_dims latents
        /\ filled_with zero (loc p_zs)
        /\ filled_with one (scale_diag p_zs)
        /\ kl_prior (emitted g g') = Some (mvn_id p_zs)
        /\ prior_built_inline (emitted g g') = true
        /\ prior_from_latent_prior (emitted g g') = false)
  /\ (forall (self : vaeseq.IndependentSequence
                       R Obs St QParams QDist DParams ODist) (g : Graph),
      (forall l, vaeseq._obs_encoder self l = map encode l) ->
      (forall l, q_call (vaeseq._q_z self) l = map q_params l) ->
      keeps_batch (vaeseq._e_core self) ->
      keeps_batch (vaeseq._f_core self) ->
      exists latents q_zs p_zs g',
        vaeseq.infer_latents sample calc_kl self contexts observed g
        = (Ok (latents,
               calc_kl (vaeseq._hparams self) latents q_zs p_zs), g')
        /\ mvn_name p_zs = "p_zs"
        /\ loc p_zs = zeros_like latents
        /\ scale_diag p_zs = ones_like latents
        /\ feature_dims (loc p_zs) = feature_dims latents
        /\ feature_dims (scale_diag p_zs) = feature_dims latents
        /\ filled_with zero (loc p_zs)
        /\ filled_with one (scale_diag p_zs)
        /\ kl_prior (emitted g g') = Some (mvn_id p_zs)
        /\ prior_built_inline (emitted g g') = true
        /\ prior_from_latent_prior (emitted g g') = false)
  /\ (forall (self : vae_seq.IndependentSequence
                       R Obs St QParams QDist DParams ODist)
             (prior : vae_seq.LatentPrior R) (g : Graph),
      vae_seq.infer_latents sample calc_kl
        (vae_seq_with_prior self prior) contexts observed g
      = vae_seq.infer_latents sample calc_kl self contexts observed g)
  /\ (forall (self : vaeseq.IndependentSequence
                       R Obs St QParams QDist DParams ODist)
             (prior : vaeseq.LatentPrior) (g : Graph),
      vaeseq.infer_latents sample calc_kl
        (vaeseq_with_prior self prior) contexts observed g
      = vaeseq.infer_latents sample calc_kl self contexts observed g).
Proof.
  intros Hobserved Hcontexts.
  assert (Hpass : forall hparams q_dist
      (e_core f_core : RNNCore (list (list R)) (list (list R)) St)
      batch_size g tr,
    exists latents q_zs p_zs g',
      (Ok (inference_pass encode e_core f_core q_params q_dist sample
             calc_kl hparams batch_size (next_id g)
             (flatten contexts) observed),
       mkGraph (S (next_id g))
         (trace g ++ inference_trace (core_name e_core) (core_name f_core)
                       tr (next_id g)))
      = (Ok (latents, calc_kl hparams latents q_zs p_zs), g')
      /\ mvn_name p_zs = "p_zs"
      /\ loc p_zs = zeros_like latents
      /\ scale_diag p_zs = ones_like latents
      /\ feature_dims (loc p_zs) = feature_dims latents
      /\ feature_dims (scale_diag p_zs) = feature_dims latents
      /\ filled_with zero (loc p_zs)
      /\ filled_with one (scale_diag p_zs)
      /\ kl_prior (emitted g g') = Some (mvn_id p_zs)
      /\ prior_built_inline (emitted g g') = true
      /\ prior_from_latent_prior (emitted g g') = false).
  { intros hparams q_dist e_core f_core batch_size g tr.
    unfold inference_pass.
    eexists _, _, (mkMVN (next_id g) "p_zs" _ _), _.
    split; [reflexivity|].
    cbn [mvn_name loc scale_diag mvn_id]. rewrite emitted_app.
    split; [reflexivity|]. split; [reflexivity|]. split; [reflexivity|].
    split; [apply feature_dims_constant|].
    split; [apply feature_dims_constant|].
    split; [apply filled_with_constant|].
    split; [apply filled_with_constant|].
    split; [apply inference_trace_kl_prior|].
    apply inference_trace_prior. }
  split; [|split; [|split]].
  - intros self g Henc Hq He Hf.
    rewrite vae_seq_infer_latents_run
      with (encode := encode) (q_params := q_params) by assumption.
    apply Hpass.
  - intros self g Henc Hq He Hf.
    rewrite vaeseq_infer_latents_run
      with (encode := encode) (q_params := q_params) by assumption.
    apply Hpass.
  - intros self prior g. reflexivity.
  - intros self prior g. reflexivity.
Qed.

Lemma prior_is_built_inline_witness :
  rectangular Demo.observed
  /\ Forall (fun c => aligned c Demo.observed)
       (flatten (Leaf Demo.two_by_three))
  /\ exists latents q_zs p_zs g',
       vae_seq.infer_latents Demo.sample Demo.calc_kl Demo.old_vae
         (Leaf Demo.two_by_three) Demo.observed Demo.empty_graph
       = (Ok (latents,
              Demo.calc_kl (vae_seq._hparams Demo.old_vae) latents q_zs
                p_zs), g')
       /\ mvn_name p_zs = "p_zs"
       /\ loc p_zs = zeros_like latents
       /\ scale_diag p_zs = ones_like latents
       /\ feature_dims (loc p_zs) = feature_dims latents
       /\ feature_dims (scale_diag p_zs) = feature_dims latents
       /\ filled_with zero (loc p_zs)
       /\ filled_with one (scale_diag p_zs)
       /\ kl_prior (emitted Demo.empty_graph g') = Some (mvn_id p_zs)
       /\ prior_built_inline (emitted Demo.empty_graph g') = true
       /\ prior_from_latent_prior (emitted Demo.empty_graph g') = false.
Proof.
  assert (H1 : rectangular Demo.observed) by (repeat constructor).
  assert (H2 : Forall (fun c => aligned c Demo.observed)
                 (flatten (Leaf Demo.two_by_three)))
    by (repeat constructor).
  split; [exact H1|]. split; [exact H2|].
  apply (proj1 (@prior_is_built_inline
                  nat nat nat nat (list (list nat)) (list (list nat))
                  (list (list nat)) Demo.nat_scalar Demo.sample Demo.calc_kl
                  Demo.encode Demo.q_params (Leaf Demo.two_by_three)
                  Demo.observed H1 H2) Demo.old_vae Demo.empty_graph).
  - intros l. reflexivity.
  - intros l. reflexivity.
  - apply keeps_batch_sum_core.
  - apply keeps_batch_sum_core.
Defined.

(** The prior the divergence of a pass sees, made visible by a
    divergence that hands back the mean and the scale it was given. *)
Example prior_of_the_pass_runs :
  value_of
    (vaeseq.infer_latents Demo.sample
       (fun _ _ _ p_zs => concat (loc p_zs) ++ concat (scale_diag p_zs))
       Demo.new_vae (Leaf Demo.two_by_three) Demo.observed
       Demo.empty_graph)
  = Some ([[[28; 29]; [31; 32]; [34; 35]]; [[37; 38]; [40; 41]; [43; 44]]],
          [[0; 0]; [0; 0]; [0; 0]; [0; 0]; [0; 0]; [0; 0];
           [1; 1]; [1; 1]; [1; 1]; [1; 1]; [1; 1]; [1; 1]]).
Proof. vm_compute. reflexivity. Qed.

(** C3 fails as stated: on the same inputs both packages build the
    prior inline, so it is not the case that exactly one of them
    does. *)
Lemma prior_is_built_inline_counterexample :
  xorb
    (prior_built_inline
       (emitted Demo.empty_graph
          (snd (vae_seq.infer_latents Demo.sample Demo.calc_kl Demo.old_vae
                  (Leaf Demo.two_by_three) Demo.observed
                  Demo.empty_graph))))
    (prior_built_inline
       (emitted Demo.empty_graph
          (snd (vaeseq.infer_latents Demo.sample Demo.calc_kl Demo.new_vae
                  (Leaf Demo.two_by_three) Demo.observed
                  Demo.empty_graph))))
  = false
  /\ prior_built_inline
       (emitted Demo.empty_graph
          (snd (vae_seq.infer_latents Demo.sample Demo.calc_kl Demo.old_vae
                  (Leaf Demo.two_by_three) Demo.observed
                  Demo.empty_graph))) = true
  /\ prior_built_inline
       (emitted Demo.empty_graph
          (snd (vaeseq.infer_latents Demo.sample Demo.calc_kl Demo.new_vae
                  (Leaf Demo.two_by_three) Demo.observed
                  Demo.empty_graph))) = true.
Proof. vm_compute. repeat split. Qed.

(* ================================================================== *)
(** * Every outcome of an inference pass *)

Lemma BatchApply_call_run {A B} (c : Callee) (module : list A -> list B)
    (x : list (list A)) (g : Graph) :
  snt.BatchApply (call c module) x g
  = (Ok (reshape2 (length x) (time_steps x) (module (concat x))),
     log [Call c] g).
Proof. reflexivity. Qed.

Lemma concatenated_eq {T} `{TensorLike T} (tensors : Nest T) :
  concatenated tensors
  = match flatten tensors with
    | [] => Raise (InvalidArgument "concat: no tensors")
    | t :: ts => util.concat_all t ts
    end.
Proof.
  unfold concatenated, util.concat_features, bind. rewrite tell_run.
  destruct (flatten tensors); reflexivity.
Qed.

Lemma concat_features_run {T} `{TensorLike T} (tensors : Nest T) (g : Graph) :
  util.concat_features tensors g
  = (concatenated tensors, log [Call ConcatFeatures] g).
Proof.
  rewrite concatenated_eq. unfold util.concat_features, bind.
  rewrite tell_run. destruct (flatten tensors); reflexivity.
Qed.

Section Outcomes.
Context {R Obs St QParams QDist DParams ODist : Type} `{Scalar R}.
Variable sample : QDist -> list (list (list R)).
Variable calc_kl :
  HParams -> list (list (list R)) -> QDist
  -> MVNDiag (list (list (list R))) -> list (list R).

(** Contexts and encoding together are never an empty group: the only
    error of their concatenation is the dimension error. *)
Lemma concatenated_pair_error (contexts : Nest (list (list (list R))))
    (enc : list (list (list R))) (e : Error) :
  concatenated (Tuple [contexts; Leaf enc]) = Raise e -> e = dim_error.
Proof.
  rewrite concatenated_eq, flatten_pair.
  destruct (flatten contexts) as [|c cs]; [discriminate|].
  change ((c :: cs) ++ [enc]) with (c :: (cs ++ [enc])). cbv beta iota.
  apply concat_all_err.
Qed.

Lemma reverse_dynamic_rnn_returns {A B S}
    (cell : RNNCore (list A) (list B) S) x s g :
  exists r,
    util.reverse_dynamic_rnn cell x s g
    = (Ok r, log (repeat (Call (Core (core_name cell))) (time_steps x)) g).
Proof.
  pose proof (dynamic_rnn_run cell (tf.reverse x) s g) as Hrun.
  rewrite time_steps_reverse in Hrun.
  unfold util.reverse_dynamic_rnn, bind. rewrite Hrun.
  destruct (forward_sweep cell (tf.reverse x) s) as [outs final].
  eexists. reflexivity.
Qed.

(** The outcome of a pass is decided by the concatenation of the
    contexts with the encoded observations. *)
Lemma vae_seq_infer_latents_outcome
    (self : vae_seq.IndependentSequence R Obs St QParams QDist DParams ODist)
    (contexts : Nest (list (list (list R)))) (observed : list (list Obs))
    (g : Graph) :
  match concatenated
          (Tuple [contexts;
                  Leaf (reshape2 (length observed) (time_steps observed)
                          (vae_seq._obs_encoder self (concat observed)))])
  with
  | Raise _ =>
      vae_seq.infer_latents sample calc_kl self contexts observed g
      = (Raise dim_error,
         mkGraph (next_id g)
           (trace g ++ [Call ObsEncoder; Call ConcatFeatures]))
  | Ok features =>
      exists latents divs m,
        vae_seq.infer_latents sample calc_kl self contexts observed g
        = (Ok (latents, divs),
           mkGraph (S (next_id g))
             (trace g ++ [Call ObsEncoder; Call ConcatFeatures]
              ++ sweep_trace (core_name (vae_seq._e_core self))
                   (core_name (vae_seq._f_core self))
                   (time_steps features) m (next_id g)))
  end.
Proof.
  remember (vae_seq.infer_latents sample calc_kl self contexts observed g)
    as run eqn:Erun.
  unfold vae_seq.infer_latents in Erun. unfold bind at 1 in Erun.
  rewrite BatchApply_call_run in Erun. unfold bind at 1 in Erun.
  rewrite concat_features_run in Erun.
  destruct (concatenated _) as [features|e] eqn:Ec.
  - unfold bind at 1 in Erun. rewrite dynamic_rnn_run in Erun.
    destruct (forward_sweep _ features _) as [e_outs e_final].
    unfold bind at 1 in Erun.
    destruct (reverse_dynamic_rnn_returns (vae_seq._f_core self) e_outs
                (initial_state (vae_seq._f_core self)
                   (util.batch_size (vae_seq._hparams self)))
                (log (repeat (Call (Core (core_name (vae_seq._e_core self))))
                        (time_steps features))
                   (log [Call ConcatFeatures] (log [Call ObsEncoder] g))))
      as [[f_outs f_final] Hf].
    rewrite Hf in Erun.
    unfold bind at 1 in Erun. rewrite BatchApply_call_run in Erun.
    rewrite !log_log in Erun.
    cbv [bind call tell ret tf.distributions.MultivariateNormalDiag
           fresh log] in Erun.
    cbn [next_id trace mvn_id] in Erun.
    eexists _, _, (time_steps e_outs).
    rewrite Erun. f_equal. f_equal. unfold sweep_trace.
    rewrite <- !app_assoc. reflexivity.
  - apply concatenated_pair_error in Ec. subst e.
    rewrite Erun, log_log. reflexivity.
Qed.

Lemma vaeseq_infer_latents_outcome
    (self : vaeseq.IndependentSequence R Obs St QParams QDist DParams ODist)
    (contexts : Nest (list (list (list R)))) (observed : list (list Obs))
    (g : Graph) :
  match concatenated
          (Tuple [contexts;
                  Leaf (reshape2 (length observed) (time_steps observed)
                          (vaeseq._obs_encoder self (concat observed)))])
  with
  | Raise _ =>
      vaeseq.infer_latents sample calc_kl self contexts observed g
      = (Raise dim_error,
         mkGraph (next_id g)
           (trace g ++ [Call ObsEncoder; Call ConcatFeatures]))
  | Ok features =>
      exists latents divs m,
        vaeseq.infer_latents sample calc_kl self contexts observed g
        = (Ok (latents, divs),
           mkGraph (S (next_id g))
             (trace g ++ [Call ObsEncoder; Call ConcatFeatures]
              ++ sweep_trace (core_name (vaeseq._e_core self))
                   (core_name (vaeseq._f_core self))
                   (time_steps features) m (next_id g)))
  end.
Proof.
  remember (vaeseq.infer_latents sample calc_kl self contexts observed g)
    as run eqn:Erun.
  unfold vaeseq.infer_latents in Erun. unfold bind at 1 in Erun.
  rewrite BatchApply_call_run in Erun. unfold bind at 1 in Erun.
  rewrite concat_features_run in Erun.
  destruct (concatenated _) as [features|e] eqn:Ec.
  - unfold bind at 1 in Erun.
    change (initial_state_from (vaeseq._e_core self)
              (util.batch_size_from_nested_tensors (Leaf observed)))
      with (ret (initial_state (vaeseq._e_core self) (length observed)))
      in Erun.
    unfold ret at 1 in Erun. unfold bind at 1 in Erun.
    rewrite dynamic_rnn_run in Erun.
    destruct (forward_sweep _ features _) as [e_outs e_final].
    unfold bind at 1 in Erun.
    change (initial_state_from (vaeseq._f_core self)
              (util.batch_size_from_nested_tensors (Leaf observed)))
      with (ret (initial_state (vaeseq._f_core self) (length observed)))
      in Erun.
    unfold ret at 1 in Erun. unfold bind at 1 in Erun.
    destruct (reverse_dynamic_rnn_returns (vaeseq._f_core self) e_outs
                (initial_state (vaeseq._f_core self) (length observed))
                (log (repeat (Call (Core (core_name (vaeseq._e_core self))))
                        (time_steps features))
                   (log [Call ConcatFeatures] (log [Call ObsEncoder] g))))
      as [[f_outs f_final] Hf].
    rewrite Hf in Erun.
    unfold bind at 1 in Erun. rewrite BatchApply_call_run in Erun.
    rewrite !log_log in Erun.
    cbv [bind call tell ret tf.distributions.MultivariateNormalDiag
           fresh log] in Erun.
    cbn [next_id trace mvn_id] in Erun.
    eexists _, _, (time_steps e_outs).
    rewrite Erun. f_equal. f_equal. unfold sweep_trace.
    rewrite <- !app_assoc. reflexivity.
  - apply concatenated_pair_error in Ec. subst e.
    rewrite Erun, log_log. reflexivity.
Qed.

End Outcomes.

Lemma forallb_repeat {A} (f : A -> bool) (a : A) (n : nat) :
  f a = true -> forallb f (repeat a n) = true.
Proof.
  intros Hf. induction n as [|n IH]; [reflexivity|].
  simpl. now rewrite Hf, IH.
Qed.

Lemma sweep_trace_allowed e_name f_name n m prior_id :
  forallb (inference_event e_name f_name)
    ([Call ObsEncoder; Call ConcatFeatures]
     ++ sweep_trace e_name f_name n m prior_id) = true.
Proof.
  unfold sweep_trace. rewrite !forallb_app.
  rewrite !forallb_repeat.
  - reflexivity.
  - simpl. now rewrite String.eqb_refl, orb_true_r.
  - simpl. now rewrite String.eqb_refl.
Qed.

Lemma sweep_trace_cores e_name f_name n m prior_id name :
  In (Call (Core name))
    ([Call ObsEncoder; Call ConcatFeatures]
     ++ sweep_trace e_name f_name n m prior_id) ->
  name = e_name \/ name = f_name.
Proof.
  unfold sweep_trace. rewrite !in_app_iff.
  intros [Hin | [Hin | [Hin | Hin]]].
  - destruct Hin as [E | [E | []]]; discriminate.
  - apply repeat_spec in Hin. injection Hin as ->. now left.
  - apply repeat_spec in Hin. injection Hin as ->. now right.
  - simpl in Hin. repeat (destruct Hin as [E | Hin]; [discriminate|]).
    contradiction.
Qed.

(** X1.  Whatever the contexts and the observations, aligned or not,
    [infer_latents] only touches the inference half of the model: every
    call it makes is to the observation encoder, the concatenation, the
    cells "e" and "f", the latent decoder and its distribution [q_zs],
    the draw, the Gaussian [p_zs] or the divergence.  It never calls
    the observation decoder and never asks [LatentPrior] for a
    distribution. *)
Theorem infer_latents_touches_inference_half_only
    (R Obs St QParams QDist DParams ODist : Type) (HR : Scalar R)
    (sample : QDist -> list (list (list R)))
    (calc_kl : HParams -> list (list (list R)) -> QDist
               -> MVNDiag (list (list (list R))) -> list (list R))
    (contexts : Nest (list (list (list R))))
    (observed : list (list Obs)) (g : Graph) :
  (forall self : vae_seq.IndependentSequence
                   R Obs St QParams QDist DParams ODist,
      let evs := emitted g (snd (vae_seq.infer_latents sample calc_kl self
                                   contexts observed g)) in
      forallb (inference_event (core_name (vae_seq._e_core self))
                 (core_name (vae_seq._f_core self))) evs = true
      /\ ~ In (Call ObsDecoder) evs
      /\ ~ In (Call LatentPriorDist) evs)
  /\ (forall self : vaeseq.IndependentSequence
                      R Obs St QParams QDist DParams ODist,
      let evs := emitted g (snd (vaeseq.infer_latents sample calc_kl self
                                   contexts observed g)) in
      forallb (inference_event (core_name (vaeseq._e_core self))
                 (core_name (vaeseq._f_core self))) evs = true
      /\ ~ In (Call ObsDecoder) evs
      /\ ~ In (Call LatentPriorDist) evs).
Proof.
  assert (Hnever : forall e_name f_name evs,
             forallb (inference_event e_name f_name) evs = true ->
             ~ In (Call ObsDecoder) evs /\ ~ In (Call LatentPriorDist) evs).
  { intros e_name f_name evs Hall. rewrite forallb_forall in Hall.
    split; intros Hin; apply Hall in Hin; discriminate. }
  split; intros self evs.
  - assert (Hall : forallb (inference_event (core_name (vae_seq._e_core self))
                              (core_name (vae_seq._f_core self))) evs = true).
    { subst evs.
      pose proof (vae_seq_infer_latents_outcome sample calc_kl self
                    contexts observed g) as Hout.
      destruct (concatenated _) as [features|e];
        [destruct Hout as (l & d & m & ->) | rewrite Hout];
        cbn [snd]; rewrite emitted_app;
        [apply sweep_trace_allowed | reflexivity]. }
    split; [exact Hall | exact (Hnever _ _ _ Hall)].
  - assert (Hall : forallb (inference_event (core_name (vaeseq._e_core self))
                              (core_name (vaeseq._f_core self))) evs = true).
    { subst evs.
      pose proof (vaeseq_infer_latents_outcome sample calc_kl self
                    contexts observed g) as Hout.
      destruct (concatenated _) as [features|e];
        [destruct Hout as (l & d & m & ->) | rewrite Hout];
        cbn [snd]; rewrite emitted_app;
        [apply sweep_trace_allowed | reflexivity]. }
    split; [exact Hall | exact (Hnever _ _ _ Hall)].
Qed.

(* ================================================================== *)
(** * The two packages against each other *)

Section Variants.
Context {R Obs St QParams QDist DParams ODist : Type} `{Scalar R}.
Variable sample : QDist -> list (list (list R)).
Variable calc_kl :
  HParams -> list (list (list R)) -> QDist
  -> MVNDiag (list (list (list R))) -> list (list R).

(** The only difference between the two [infer_latents] is where the
    batch size of the initial states comes from. *)
Lemma variants_agree (hparams : HParams)
    (obs_encoder : list Obs -> list (list R))
    (obs_decoder : ObsDecoderT (list (list R)) DParams ODist)
    (d_core e_core f_core : RNNCore (list (list R)) (list (list R)) St)
    (q_z : LatentDecoderT (list R) QParams QDist)
    (old_prior : vae_seq.LatentPrior R) (new_prior : vaeseq.LatentPrior)
    (old_obs : vae_seq.ObsDist R St DParams ODist)
    (new_obs : vaeseq.ObsDist R St DParams ODist)
    (contexts : Nest (list (list (list R)))) (observed : list (list Obs))
    (g : Graph) :
  util.batch_size hparams = length observed ->
  vae_seq.infer_latents sample calc_kl
    (vae_seq.mkIndependentSequence hparams obs_encoder obs_decoder
       d_core e_core f_core q_z old_prior old_obs)
    contexts observed g
  = vaeseq.infer_latents sample calc_kl
      (vaeseq.mkIndependentSequence hparams obs_encoder obs_decoder
         d_core e_core f_core q_z new_prior new_obs)
      contexts observed g.
Proof.
  intros Hbatch.
  unfold vae_seq.infer_latents, vaeseq.infer_latents.
  cbn [vae_seq._hparams vae_seq._obs_encoder vae_seq._e_core
       vae_seq._f_core vae_seq._q_z
       vaeseq._hparams vaeseq._obs_encoder vaeseq._e_core
       vaeseq._f_core vaeseq._q_z].
  rewrite Hbatch. reflexivity.
Qed.

End Variants.

Lemma unstack_zeros {R} `{Scalar R} (n : nat) (shape : list nat) :
  unstack (zeros_of_shape (n :: shape)) = repeat (zeros_of_shape shape) n.
Proof. reflexivity. Qed.

Lemma observed_rows {R} `{Scalar R} (hparams : HParams) :
  vae_test._observed hparams
  = repeat (repeat (zeros_of_shape (obs_shape hparams))
              (util.sequence_size hparams))
      (util.batch_size hparams).
Proof.
  unfold vae_test._observed, batch_time. cbn [app].
  rewrite unstack_zeros, map_repeat, unstack_zeros. reflexivity.
Qed.

Lemma Forall_repeat {A} (P : A -> Prop) (a : A) (n : nat) :
  P a -> Forall P (repeat a n).
Proof. intros Ha. induction n; simpl; constructor; assumption. Qed.

(** X3.  Package [vae_seq] takes the batch size of the initial states
    of cells "e" and "f" from the hyperparameters, package [vaeseq]
    from the observations it is given.  For the same components the two
    [infer_latents] are the same computation, on any contexts and
    observations, as soon as the configured batch size is the number of
    rows of the observations. *)
Theorem infer_latents_variants_agree
    (R Obs St QParams QDist DParams ODist : Type) (HR : Scalar R)
    (sample : QDist -> list (list (list R)))
    (calc_kl : HParams -> list (list (list R)) -> QDist
               -> MVNDiag (list (list (list R))) -> list (list R))
    (hparams : HParams)
    (obs_encoder : list Obs -> list (list R))
    (obs_decoder : ObsDecoderT (list (list R)) DParams ODist)
    (d_core e_core f_core : RNNCore (list (list R)) (list (list R)) St)
    (q_z : LatentDecoderT (list R) QParams QDist)
    (old_prior : vae_seq.LatentPrior R) (new_prior : vaeseq.LatentPrior)
    (contexts : Nest (list (list (list R)))) (observed : list (list Obs))
    (g : Graph) :
  util.batch_size hparams = length observed ->
  vae_seq.infer_latents sample calc_kl
    (vae_seq.mkIndependentSequence hparams obs_encoder obs_decoder
       d_core e_core f_core q_z old_prior
       (vae_seq.ObsDist_init hparams d_core obs_decoder))
    contexts observed g
  = vaeseq.infer_latents sample calc_kl
      (vaeseq.mkIndependentSequence hparams obs_encoder obs_decoder
         d_core e_core f_core q_z new_prior
         (vaeseq.ObsDist_init d_core obs_decoder))
      contexts observed g.
Proof. intros Hbatch. now apply variants_agree. Qed.

Lemma infer_latents_variants_agree_witness :
  util.batch_size Demo.small_hparams = length Demo.observed
  /\ vae_seq.infer_latents Demo.sample Demo.calc_kl Demo.old_vae
       (Leaf Demo.short_context) Demo.observed Demo.empty_graph
     = vaeseq.infer_latents Demo.sample Demo.calc_kl Demo.new_vae
         (Leaf Demo.short_context) Demo.observed Demo.empty_graph.
Proof.
  split; [reflexivity|].
  apply (@infer_latents_variants_agree
           nat nat nat nat (list (list nat)) (list (list nat))
           (list (list nat)) Demo.nat_scalar Demo.sample Demo.calc_kl
           Demo.small_hparams (map Demo.encode) Demo.decoder3
           (Demo.sum_core "d_core") (Demo.sum_core "e_core")
           (Demo.sum_core "f_core") Demo.q_z
           (vae_seq.mkLatentPrior Demo.small_hparams
              (mkMVN 0 "prior_z" (tf.zeros 2 2) (tf.ones 2 2)))
           (vaeseq.LatentPrior_init Demo.small_hparams "latent_prior")
           (Leaf Demo.short_context) Demo.observed Demo.empty_graph).
  reflexivity.
Defined.

(** When the configured batch size is not that of the data the two
    packages start their sweeps from different states. *)
Example infer_latents_variants_differ :
  value_of
    (vae_seq.infer_latents Demo.sample Demo.calc_kl Demo.old_vae
       (Leaf [[[1]; [2]; [3]]]) [[1; 2; 3]] Demo.empty_graph)
  <> value_of
       (vaeseq.infer_latents Demo.sample Demo.calc_kl Demo.new_vae
          (Leaf [[[1]; [2]; [3]]]) [[1; 2; 3]] Demo.empty_graph).
Proof. vm_compute. discriminate. Qed.

(** X4.  The observations the test builds, [_observed(hparams)], are a
    rectangular [[batch_size, sequence_size]] block of all-zero
    observations of shape [obs_shape].  Their number of rows is the
    configured batch size, so on the test inputs the [infer_latents] of
    package [vae_seq], which trusts the hyperparameters, and that of
    package [vaeseq], which reads the batch size off the observations,
    coincide for every model and every context. *)
Theorem test_observations_match_configured_batch
    (R St QParams QDist DParams ODist : Type) (HR : Scalar R)
    (hparams : HParams) :
  rectangular (vae_test._observed (R := R) hparams)
  /\ dims (vae_test._observed (R := R) hparams)
     = repeat (util.sequence_size hparams) (util.batch_size hparams)
  /\ Forall (Forall (eq (zeros_of_shape (R := R) (obs_shape hparams))))
       (vae_test._observed hparams)
  /\ (forall (sample : QDist -> list (list (list R)))
             (calc_kl : HParams -> list (list (list R)) -> QDist
                        -> MVNDiag (list (list (list R))) -> list (list R))
             (obs_encoder : list (NDArray R) -> list (list R))
             (obs_decoder : ObsDecoderT (list (list R)) DParams ODist)
             (d_core e_core f_core
                : RNNCore (list (list R)) (list (list R)) St)
             (q_z : LatentDecoderT (list R) QParams QDist)
             (old_prior : vae_seq.LatentPrior R)
             (new_prior : vaeseq.LatentPrior)
             (contexts : Nest (list (list (list R)))) (g : Graph),
      vae_seq.infer_latents sample calc_kl
        (vae_seq.mkIndependentSequence hparams obs_encoder obs_decoder
           d_core e_core f_core q_z old_prior
           (vae_seq.ObsDist_init hparams d_core obs_decoder))
        contexts (vae_test._observed hparams) g
      = vaeseq.infer_latents sample calc_kl
          (vaeseq.mkIndependentSequence hparams obs_encoder obs_decoder
             d_core e_core f_core q_z new_prior
             (vaeseq.ObsDist_init d_core obs_decoder))
          contexts (vae_test._observed hparams) g).
Proof.
  assert (Hrows : Forall (fun r : list (NDArray R) =>
                            length r = util.sequence_size hparams)
                    (vae_test._observed hparams)).
  { rewrite observed_rows. apply Forall_repeat. apply repeat_length. }
  split; [exact (rectangular_uniform Hrows)|].
  split.
  { rewrite (dims_uniform Hrows). f_equal.
    rewrite observed_rows. apply repeat_length. }
  split.
  { rewrite observed_rows. apply Forall_repeat, Forall_repeat. reflexivity. }
  intros. apply variants_agree.
  rewrite observed_rows. symmetry. apply repeat_length.
Qed.

Example test_observations_run :
  vae_test._observed (mkHParams 2 3 1 [2])
  = [[Axis [Item 0; Item 0]; Axis [Item 0; Item 0]; Axis [Item 0; Item 0]];
     [Axis [Item 0; Item 0]; Axis [Item 0; Item 0]; Axis [Item 0; Item 0]]].
Proof. reflexivity. Qed.

(* ================================================================== *)
(** * Shapes through the inference pass *)

Section Pass_shapes.
Context {R Obs St QParams QDist : Type} `{Scalar R}.
Variable encode : Obs -> list R.
Variables e_core f_core : RNNCore (list (list R)) (list (list R)) St.
Variable q_params : list R -> QParams.
Variable q_dist : list (list QParams) -> string -> QDist.
Variable sample : QDist -> list (list (list R)).
Variable calc_kl :
  HParams -> list (list (list R)) -> QDist
  -> MVNDiag (list (list (list R))) -> list (list R).
Hypothesis He : keeps_batch e_core.
Hypothesis Hf : keeps_batch f_core.
Hypothesis Hsample : forall p, dims (sample (q_dist p "q_zs")) = dims p.
Hypothesis Hkl : forall h l q p, dims (calc_kl h l q p) = dims l.

Lemma inference_pass_dims hparams batch_size prior_id
    (contexts : Nest (list (list (list R)))) (observed : list (list Obs)) :
  rectangular observed ->
  Forall (fun c => aligned c observed) (flatten contexts) ->
  dims (fst (inference_pass encode e_core f_core q_params q_dist sample
               calc_kl hparams batch_size prior_id
               (flatten contexts) observed)) = dims observed
  /\ dims (snd (inference_pass encode e_core f_core q_params q_dist sample
                  calc_kl hparams batch_size prior_id
                  (flatten contexts) observed)) = dims observed.
Proof.
  intros Hobserved Hcontexts. unfold inference_pass. cbn [fst snd].
  rewrite Hkl, Hsample, dims_map.
  pose proof (dims_map encode observed) as Hd_enc.
  destruct (concat_features_aligned contexts (map (map encode) observed)
              (mkGraph 0 [])) as [_ Hd_feat].
  { eapply Forall_impl; [|exact Hcontexts]. unfold aligned. congruence. }
  rewrite Hd_enc in Hd_feat.
  set (features := join_all (flatten contexts ++ [map (map encode) observed]))
    in *.
  assert (Hfeat : rectangular features)
    by (eapply rectangular_of_dims; eassumption).
  pose proof (forward_sweep_shape He (initial_state e_core batch_size) Hfeat)
    as Hd_e.
  set (e_outs := fst (forward_sweep e_core features _)) in *.
  assert (He_outs : rectangular e_outs)
    by (eapply rectangular_of_dims; eassumption).
  rewrite (backward_sweep_shape Hf _ He_outs).
  split; congruence.
Qed.

End Pass_shapes.

(** X5.  On contexts and observations with matching batch and time
    axes, [infer_latents] returns latents and divergences with the
    batch and time axes of the observations, row by row.  The cells
    keep the batch size, the encoder and the latent decoder act on
    every row alike, a draw has the batch and time axes of the
    posterior's parameters and the divergence those of the latents. *)
Theorem infer_latents_keeps_batch_and_time
    (R Obs St QParams QDist DParams ODist : Type) (HR : Scalar R)
    (sample : QDist -> list (list (list R)))
    (calc_kl : HParams -> list (list (list R)) -> QDist
               -> MVNDiag (list (list (list R))) -> list (list R))
    (encode : Obs -> list R) (q_params : list R -> QParams)
    (contexts : Nest (list (list (list R))))
    (observed : list (list Obs)) :
  rectangular observed ->
  Forall (fun c => aligned c observed) (flatten contexts) ->
  (forall h l q p, dims (calc_kl h l q p) = dims l) ->
  (forall (self : vae_seq.IndependentSequence
                    R Obs St QParams QDist DParams ODist) (g : Graph),
      (forall l, vae_seq._obs_encoder self l = map encode l) ->
      (forall l, q_call (vae_seq._q_z self) l = map q_params l) ->
      keeps_batch (vae_seq._e_core self) ->
      keeps_batch (vae_seq._f_core self) ->
      (forall p, dims (sample (q_dist (vae_seq._q_z self) p "q_zs"))
                 = dims p) ->
      exists latents divs g',
        vae_seq.infer_latents sample calc_kl self contexts observed g
        = (Ok (latents, divs), g')
        /\ dims latents = dims observed
        /\ dims divs = dims observed)
  /\ (forall (self : vaeseq.IndependentSequence
                       R Obs St QParams QDist DParams ODist) (g : Graph),
      (forall l, vaeseq._obs_encoder self l = map encode l) ->
      (forall l, q_call (vaeseq._q_z self) l = map q_params l) ->
      keeps_batch (vaeseq._e_core self) ->
      keeps_batch (vaeseq._f_core self) ->
      (forall p, dims (sample (q_dist (vaeseq._q_z self) p "q_zs"))
                 = dims p) ->
      exists latents divs g',
        vaeseq.infer_latents sample calc_kl self contexts observed g
        = (Ok (latents, divs), g')
        /\ dims latents = dims observed
        /\ dims divs = dims observed).
Proof.
  intros Hobserved Hcontexts Hkl. split.
  - intros self g Henc Hq He Hf Hsample.
    rewrite vae_seq_infer_latents_run
      with (encode := encode) (q_params := q_params) by assumption.
    destruct (inference_pass_dims encode q_params
                (q_dist (vae_seq._q_z self)) sample calc_kl
                He Hf Hsample Hkl
                (vae_seq._hparams self)
                (util.batch_size (vae_seq._hparams self)) (next_id g)
                contexts Hobserved Hcontexts) as [Hl Hd].
    destruct (inference_pass _ _ _ _ _ _ _ _ _ _ _ _) as [latents divs].
    exists latents, divs. eexists. split; [reflexivity|]. now split.
  - intros self g Henc Hq He Hf Hsample.
    rewrite vaeseq_infer_latents_run
      with (encode := encode) (q_params := q_params) by assumption.
    destruct (inference_pass_dims encode q_params
                (q_dist (vaeseq._q_z self)) sample calc_kl
                He Hf Hsample Hkl
                (vaeseq._hparams self) (length observed) (next_id g)
                contexts Hobserved Hcontexts) as [Hl Hd].
    destruct (inference_pass _ _ _ _ _ _ _ _ _ _ _ _) as [latents divs].
    exists latents, divs. eexists. split; [reflexivity|]. now split.
Qed.

Lemma infer_latents_keeps_batch_and_time_witness :
  rectangular Demo.observed
  /\ Forall (fun c => aligned c Demo.observed)
       (flatten (Leaf Demo.two_by_three))
  /\ exists latents divs g',
       vaeseq.infer_latents Demo.sample Demo.calc_kl Demo.new_vae
         (Leaf Demo.two_by_three) Demo.observed Demo.empty_graph
       = (Ok (latents, divs), g')
       /\ dims latents = dims Demo.observed
       /\ dims divs = dims Demo.observed.
Proof.
  assert (H1 : rectangular Demo.observed) by (repeat constructor).
  assert (H2 : Forall (fun c => aligned c Demo.observed)
                 (flatten (Leaf Demo.two_by_three)))
    by (repeat constructor).
  split; [exact H1|]. split; [exact H2|].
  apply (proj2 (@infer_latents_keeps_batch_and_time
                  nat nat nat nat (list (list nat)) (list (list nat))
                  (list (list nat)) Demo.nat_scalar Demo.sample Demo.calc_kl
                  Demo.encode Demo.q_params (Leaf Demo.two_by_three)
                  Demo.observed H1 H2
                  (fun h l q p => dims_map _ l))
           Demo.new_vae Demo.empty_graph).
  - intros l. reflexivity.
  - intros l. reflexivity.
  - apply keeps_batch_sum_core.
  - apply keeps_batch_sum_core.
  - intros p. apply dims_map.
Defined.

(* ================================================================== *)
(** * Rollouts through ObsDist *)

Section Rollouts.
Context {R St DParams ODist E : Type} `{Scalar R}.
Variable d_core : RNNCore (list (list R)) (list (list R)) St.
Variable obs_decoder : ObsDecoderT (list (list R)) DParams ODist.

Local Notation self := (vaeseq.mkObsDist d_core obs_decoder).
Local Notation run :=
  (rollout (E := E) (vaeseq.ObsDist_build self)
     (vaeseq.ObsDist_next_state self)).

Lemma ObsDist_build_run context latent d_state g :
  vaeseq.ObsDist_build self (context, latent) d_state g
  = match concatenated context with
    | Ok features =>
        (Ok (dec_call obs_decoder
               (fst (core_step d_core features d_state), latent),
             snd (core_step d_core features d_state)),
         log (obs_step_trace (core_name d_core)) g)
    | Raise e => (Raise e, log [Call ConcatFeatures] g)
    end.
Proof.
  unfold vaeseq.ObsDist_build. unfold bind at 1.
  rewrite concat_features_run.
  destruct (concatenated context) as [features|e]; [|reflexivity].
  unfold bind at 1. rewrite run_core_run.
  cbn [vaeseq.od_d_core vaeseq.od_obs_decoder].
  destruct (core_step d_core features d_state) as [d_out s1].
  unfold bind. rewrite call_run. unfold ret.
  rewrite !log_log. reflexivity.
Qed.

Lemma rollout_cons input event rest d_state g :
  run ((input, event) :: rest) d_state g
  = match vaeseq.ObsDist_build self input d_state g with
    | (Ok (params, state1), g1) =>
        match run rest state1 g1 with
        | (Ok (ps, final), g2) => (Ok (params :: ps, final), g2)
        | (Raise e, g2) => (Raise e, g2)
        end
    | (Raise e, g1) => (Raise e, g1)
    end.
Proof.
  cbn [rollout]. unfold bind at 1.
  destruct (vaeseq.ObsDist_build self input d_state g) as [[[params s1]|e] g1];
    [|reflexivity].
  unfold bind, ret, vaeseq.ObsDist_next_state.
  destruct (rollout _ _ rest s1 g1) as [[[ps final]|e] g2]; reflexivity.
Qed.

Lemma rollout_ignores_latents inputs1 inputs2 d_state g :
  map context_of inputs1 = map context_of inputs2 ->
  snd (run inputs1 d_state g) = snd (run inputs2 d_state g)
  /\ state_of (run inputs1 d_state g) = state_of (run inputs2 d_state g)
  /\ next_id (snd (run inputs1 d_state g)) = next_id g.
Proof.
  revert inputs2 d_state g.
  induction inputs1 as [|[[c1 l1] ev1] rest1 IH];
    intros [|[[c2 l2] ev2] rest2] d_state g Hctx; try discriminate.
  - repeat split.
  - cbn [map context_of fst] in Hctx. injection Hctx as <- Hrest.
    rewrite !rollout_cons, !ObsDist_build_run.
    destruct (concatenated c1) as [features|e]; [|repeat split].
    specialize (IH rest2 (snd (core_step d_core features d_state))
                  (log (obs_step_trace (core_name d_core)) g) Hrest).
    destruct IH as (Hg & Hs & Hid).
    unfold state_of in *.
    destruct (rollout _ _ rest1 _ _) as [[[ps1 f1]|e1] g1];
      destruct (rollout _ _ rest2 _ _) as [[[ps2 f2]|e2] g2];
      cbn [fst snd] in *; try discriminate;
      repeat split; assumption.
Qed.

Lemma rollout_trajectory inputs features d_state g :
  Forall2 (fun input x => concatenated (context_of input) = Ok x)
    inputs features ->
  run inputs d_state g
  = (Ok (zip_with (fun d_out input =>
                     dec_call obs_decoder (d_out, latent_of input))
           (fst (scan_left (core_step d_core) features d_state)) inputs,
         snd (scan_left (core_step d_core) features d_state)),
     log (flat_map (fun _ => obs_step_trace (core_name d_core)) inputs) g).
Proof.
  intros Hall. revert d_state g.
  induction Hall as [|[[c l] ev] x inputs features Hx Hall IH];
    intros d_state g.
  - cbn. unfold ret. now rewrite log_nil.
  - rewrite rollout_cons, ObsDist_build_run.
    cbn [context_of fst] in Hx. rewrite Hx. rewrite IH.
    cbn [scan_left flat_map].
    destruct (core_step d_core x d_state) as [d_out s1]. cbn [fst snd].
    destruct (scan_left (core_step d_core) features s1) as [outs final].
    cbn [fst snd zip_with latent_of]. now rewrite log_log.
Qed.

End Rollouts.

(** X6.  Over a whole rollout of [ObsDist], the latents and the
    observed events never reach the recurrent state: two rollouts over
    the same contexts, whatever their latents and events, make the same
    calls, fail at the same step or end in the same cell state, and
    neither allocates a distribution object. *)
Theorem ObsDist_rollout_ignores_latents
    (R St DParams ODist E : Type) (HR : Scalar R)
    (inputs1 inputs2
       : list ((Nest (list (list R)) * list (list R)) * option E))
    (d_state : St) (g : Graph) :
  map context_of inputs1 = map context_of inputs2 ->
  (forall self : vae_seq.ObsDist R St DParams ODist,
      let run := rollout (vae_seq.ObsDist_build self)
                   (vae_seq.ObsDist_next_state self) in
      snd (run inputs1 d_state g) = snd (run inputs2 d_state g)
      /\ state_of (run inputs1 d_state g) = state_of (run inputs2 d_state g)
      /\ next_id (snd (run inputs1 d_state g)) = next_id g)
  /\ (forall self : vaeseq.ObsDist R St DParams ODist,
      let run := rollout (vaeseq.ObsDist_build self)
                   (vaeseq.ObsDist_next_state self) in
      snd (run inputs1 d_state g) = snd (run inputs2 d_state g)
      /\ state_of (run inputs1 d_state g) = state_of (run inputs2 d_state g)
      /\ next_id (snd (run inputs1 d_state g)) = next_id g).
Proof.
  intros Hctx. split.
  - intros [hparams d_core obs_decoder].
    exact (rollout_ignores_latents d_core obs_decoder inputs1 inputs2
             d_state g Hctx).
  - intros [d_core obs_decoder].
    exact (rollout_ignores_latents d_core obs_decoder inputs1 inputs2
             d_state g Hctx).
Qed.

Lemma ObsDist_rollout_ignores_latents_witness :
  map context_of Scenario.inputs1 = map context_of Scenario.inputs2
  /\ state_of (rollout (vaeseq.ObsDist_build Scenario.new_obs)
                 (vaeseq.ObsDist_next_state Scenario.new_obs)
                 Scenario.inputs1 10 Demo.empty_graph)
     = state_of (rollout (vaeseq.ObsDist_build Scenario.new_obs)
                   (vaeseq.ObsDist_next_state Scenario.new_obs)
                   Scenario.inputs2 10 Demo.empty_graph).
Proof.
  assert (H : map context_of Scenario.inputs1
              = map context_of Scenario.inputs2) by reflexivity.
  split; [exact H|].
  apply (proj2 (@ObsDist_rollout_ignores_latents
                  nat nat (list (list nat)) (list (list nat)) nat
                  Demo.nat_scalar Scenario.inputs1 Scenario.inputs2 10
                  Demo.empty_graph H) Scenario.new_obs).
Defined.

(** X7.  A rollout of [ObsDist] over inputs whose contexts concatenate
    is the recurrence of cell "d" over the concatenated contexts: the
    state after the last step is the one the cell reaches from the
    initial state over these features, the parameters of step [t] are
    the decoder's for (output of the cell at [t], latent at [t]), one
    per input, and every step calls the concatenation, the cell and the
    decoder once, in this order. *)
Theorem ObsDist_rollout_is_cell_recurrence
    (R St DParams ODist E : Type) (HR : Scalar R)
    (inputs : list ((Nest (list (list R)) * list (list R)) * option E))
    (features : list (list (list R)))
    (d_state : St) (g : Graph) :
  Forall2 (fun input x => concatenated (context_of input) = Ok x)
    inputs features ->
  (forall self : vae_seq.ObsDist R St DParams ODist,
      rollout (vae_seq.ObsDist_build self)
        (vae_seq.ObsDist_next_state self) inputs d_state g
      = (Ok (zip_with
               (fun d_out input =>
                  dec_call (vae_seq.od_obs_decoder self)
                    (d_out, latent_of input))
               (fst (scan_left (core_step (vae_seq.od_d_core self))
                       features d_state))
               inputs,
             snd (scan_left (core_step (vae_seq.od_d_core self))
                    features d_state)),
         mkGraph (next_id g)
           (trace g ++
            flat_map (fun _ =>
                        obs_step_trace (core_name (vae_seq.od_d_core self)))
              inputs)))
  /\ (forall self : vaeseq.ObsDist R St DParams ODist,
      rollout (vaeseq.ObsDist_build self)
        (vaeseq.ObsDist_next_state self) inputs d_state g
      = (Ok (zip_with
               (fun d_out input =>
                  dec_call (vaeseq.od_obs_decoder self)
                    (d_out, latent_of input))
               (fst (scan_left (core_step (vaeseq.od_d_core self))
                       features d_state))
               inputs,
             snd (scan_left (core_step (vaeseq.od_d_core self))
                    features d_state)),
         mkGraph (next_id g)
           (trace g ++
            flat_map (fun _ =>
                        obs_step_trace (core_name (vaeseq.od_d_core self)))
              inputs))).
Proof.
  intros Hall. split.
  - intros [hparams d_core obs_decoder].
    exact (rollout_trajectory d_core obs_decoder d_state g Hall).
  - intros [d_core obs_decoder].
    exact (rollout_trajectory d_core obs_decoder d_state g Hall).
Qed.

Lemma ObsDist_rollout_is_cell_recurrence_witness :
  Forall2 (fun input x => concatenated (context_of input) = Ok x)
    Scenario.inputs1 [[[1; 3]; [2; 4]]; [[5]; [6]]]
  /\ rollout (vae_seq.ObsDist_build Scenario.old_obs)
       (vae_seq.ObsDist_next_state Scenario.old_obs)
       Scenario.inputs1 10 Demo.empty_graph
     = (Ok ([[[11; 13]; [12; 14]; [7]; [8]]; [[17]; [18]; [9]; [9]]], 14),
        mkGraph 0 (obs_step_trace "d_core" ++ obs_step_trace "d_core")).
Proof.
  assert (H : Forall2 (fun input x => concatenated (context_of input) = Ok x)
                Scenario.inputs1 [[[1; 3]; [2; 4]]; [[5]; [6]]])
    by (repeat constructor).
  split; [exact H|].
  apply (proj1 (@ObsDist_rollout_is_cell_recurrence
                  nat nat (list (list nat)) (list (list nat)) nat
                  Demo.nat_scalar Scenario.inputs1
                  [[[1; 3]; [2; 4]]; [[5]; [6]]] 10 Demo.empty_graph H)
           Scenario.old_obs).
Defined.

Example ObsDist_rollout_stops_at_misaligned_context :
  rollout (vaeseq.ObsDist_build Scenario.new_obs)
    (vaeseq.ObsDist_next_state (E := nat) Scenario.new_obs)
    [((Leaf [[5]; [6]], [[9]; [9]]), None);
     ((Tuple [Leaf [[1]; [2]]; Leaf [[3]]], [[7]; [8]]), None)]
    10 Demo.empty_graph
  = (Raise dim_error,
     mkGraph 0 (obs_step_trace "d_core" ++ [Call ConcatFeatures])).
Proof. reflexivity. Qed.

(* ================================================================== *)
(** * The prior's name and sample space *)

Lemma append_nonempty (a b : string) : b <> "" -> (a ++ b)%string <> "".
Proof.
  intros Hb. destruct a as [|c a]; simpl; [exact Hb | discriminate].
Qed.

(** X8.  In package [vaeseq], [LatentPrior.dist] names the Gaussian it
    builds after the caller's [name] when that is a non-empty string;
    without a name, or with the empty string, the name is the module's
    name, whatever Sonnet made it, followed by [_dist].  The Gaussian's
    name is never empty. *)
Theorem LatentPrior_dist_name (R : Type) (HR : Scalar R)
    (self : vaeseq.LatentPrior) (batch_size : nat) (g : Graph) :
  (forall (c : Ascii.ascii) (rest : string),
      option_map (@mvn_name (list (list R)))
        (value_of (vaeseq.LatentPrior_dist self batch_size
                     (Some (String c rest)) g))
      = Some (String c rest))
  /\ option_map (@mvn_name (list (list R)))
       (value_of (vaeseq.LatentPrior_dist self batch_size None g))
     = Some (vaeseq.module_name self ++ "_dist")%string
  /\ option_map (@mvn_name (list (list R)))
       (value_of (vaeseq.LatentPrior_dist self batch_size (Some "") g))
     = Some (vaeseq.module_name self ++ "_dist")%string
  /\ (forall name : option string,
      exists d : MVNDiag (list (list R)),
        value_of (vaeseq.LatentPrior_dist self batch_size name g) = Some d
        /\ mvn_name d <> "").
Proof.
  split; [reflexivity|]. split; [reflexivity|]. split; [reflexivity|].
  intros name. eexists. split; [reflexivity|]. cbn [mvn_name].
  destruct name as [[|c rest]|]; cbn [vaeseq.name_or];
    try discriminate; now apply append_nonempty.
Qed.

(** X9.  [LatentPrior.event_size] describes what the prior really
    draws from.  In package [vaeseq] every Gaussian that [dist] builds
    has [batch_size] rows of mean and of scale, each as long as the one
    entry of [event_size].  In package [vae_seq] the same holds of the
    Gaussian built at construction, with the hyperparameters' batch
    size for the number of rows. *)
Theorem LatentPrior_event_size_describes_dist (R : Type) (HR : Scalar R) :
  (forall (self : vaeseq.LatentPrior) (batch_size : nat)
          (name : option string) (g : Graph),
      exists d : MVNDiag (list (list R)),
        value_of (vaeseq.LatentPrior_dist self batch_size name g) = Some d
        /\ length (loc d) = batch_size
        /\ length (scale_diag d) = batch_size
        /\ Forall (fun row => [length row]
                              = vaeseq.LatentPrior_event_size self) (loc d)
        /\ Forall (fun row => [length row]
                              = vaeseq.LatentPrior_event_size self)
             (scale_diag d))
  /\ (forall (hparams : HParams) (g : Graph),
      exists self : vae_seq.LatentPrior R,
        value_of (vae_seq.LatentPrior_init hparams g) = Some self
        /\ vae_seq.lp_hparams self = hparams
        /\ length (loc (vae_seq.lp_dist self)) = util.batch_size hparams
        /\ length (scale_diag (vae_seq.lp_dist self))
           = util.batch_size hparams
        /\ Forall (fun row => [length row]
                              = vae_seq.LatentPrior_event_size self)
             (loc (vae_seq.lp_dist self))
        /\ Forall (fun row => [length row]
                              = vae_seq.LatentPrior_event_size self)
             (scale_diag (vae_seq.lp_dist self))).
Proof.
  split.
  - intros self batch_size name g. eexists. split; [reflexivity|].
    cbn [loc scale_diag]. unfold tf.set_shape, tf.zeros, tf.ones.
    cbn [fst snd]. rewrite !repeat_length.
    repeat split; apply Forall_repeat;
      unfold vaeseq.LatentPrior_event_size, tf.TensorShape;
      now rewrite repeat_length.
  - intros hparams g. eexists. split; [reflexivity|].
    cbn [vae_seq.lp_dist vae_seq.lp_hparams loc scale_diag].
    unfold tf.set_shape, tf.zeros, tf.ones.
    cbn [fst snd]. rewrite !repeat_length.
    repeat split; apply Forall_repeat;
      unfold vae_seq.LatentPrior_event_size, tf.TensorShape;
      cbn [vae_seq.lp_hparams]; now rewrite repeat_length.
Qed.

(* ================================================================== *)
(** * Construction *)

(** X10.  [_init_submodules] asks the cell factory for three cells,
    named [d_core], [e_core] and [f_core], and hands [ObsDist] the very
    cell "d" and observation decoder the model holds.  In package
    [vae_seq] construction builds the prior's Gaussian [prior_z], in
    package [vaeseq] it builds no distribution.  With a factory that
    names cells as asked, an inference pass of the constructed model
    never steps the generative cell [d_core], whatever its inputs. *)
Theorem init_submodules_wires_the_model
    (R Obs St QParams QDist DParams ODist : Type) (HR : Scalar R)
    (sample : QDist -> list (list (list R)))
    (calc_kl : HParams -> list (list (list R)) -> QDist
               -> MVNDiag (list (list (list R))) -> list (list R))
    (make_rnn : HParams -> string
                -> RNNCore (list (list R)) (list (list R)) St)
    (latent_decoder : HParams -> string
                      -> LatentDecoderT (list R) QParams QDist)
    (latent_prior_scope : string)
    (hparams : HParams) (obs_encoder : list Obs -> list (list R))
    (obs_decoder : ObsDecoderT (list (list R)) DParams ODist) :
  (forall h name, core_name (make_rnn h name) = name) ->
  (forall g : Graph,
      exists vae : vae_seq.IndependentSequence
                     R Obs St QParams QDist DParams ODist,
        vae_seq._init_submodules make_rnn latent_decoder hparams
          obs_encoder obs_decoder g
        = (Ok vae,
           mkGraph (S (next_id g)) (trace g ++ [NewMVN "prior_z" (next_id g)]))
        /\ vae_seq.od_d_core (vae_seq._observed_distcore vae)
           = vae_seq._d_core vae
        /\ vae_seq.od_obs_decoder (vae_seq._observed_distcore vae)
           = vae_seq._obs_decoder vae
        /\ core_name (vae_seq._d_core vae) = "d_core"
        /\ core_name (vae_seq._e_core vae) = "e_core"
        /\ core_name (vae_seq._f_core vae) = "f_core"
        /\ forall contexts observed g',
             ~ In (Call (Core "d_core"))
                 (emitted g' (snd (vae_seq.infer_latents sample calc_kl vae
                                     contexts observed g'))))
  /\ (let vae := vaeseq._init_submodules make_rnn latent_decoder
                   latent_prior_scope hparams obs_encoder obs_decoder in
      vaeseq.od_d_core (vaeseq._observed_distcore vae) = vaeseq._d_core vae
      /\ vaeseq.od_obs_decoder (vaeseq._observed_distcore vae)
         = vaeseq._obs_decoder vae
      /\ core_name (vaeseq._d_core vae) = "d_core"
      /\ core_name (vaeseq._e_core vae) = "e_core"
      /\ core_name (vaeseq._f_core vae) = "f_core"
      /\ forall contexts observed g',
           ~ In (Call (Core "d_core"))
               (emitted g' (snd (vaeseq.infer_latents sample calc_kl vae
                                   contexts observed g')))).
Proof.
  intros Hname. split.
  - intros g. eexists. split; [reflexivity|].
    cbn [vae_seq._observed_distcore vae_seq._d_core vae_seq._e_core
         vae_seq._f_core vae_seq._obs_decoder vae_seq.od_d_core
         vae_seq.od_obs_decoder vae_seq.ObsDist_init].
    rewrite !Hname. repeat (split; [reflexivity|]).
    intros contexts observed g' Hin.
    match type of Hin with
    | In _ (emitted _ (snd (vae_seq.infer_latents _ _ ?vae _ _ _))) =>
        pose proof (vae_seq_infer_latents_outcome sample calc_kl vae
                      contexts observed g') as Hout
    end.
    destruct (concatenated _) as [features|e];
      [destruct Hout as (l & d & m & E) | rename Hout into E];
      rewrite E in Hin; cbn [snd] in Hin; rewrite emitted_app in Hin.
    + apply sweep_trace_cores in Hin.
      cbn [vae_seq._e_core vae_seq._f_core] in Hin.
      rewrite !Hname in Hin. destruct Hin; discriminate.
    + destruct Hin as [Hin | [Hin | []]]; discriminate.
  - cbv zeta. unfold vaeseq._init_submodules.
    cbn [vaeseq._observed_distcore vaeseq._d_core vaeseq._e_core
         vaeseq._f_core vaeseq._obs_decoder vaeseq.od_d_core
         vaeseq.od_obs_decoder vaeseq.ObsDist_init].
    rewrite !Hname. repeat (split; [reflexivity|]).
    intros contexts observed g' Hin.
    match type of Hin with
    | In _ (emitted _ (snd (vaeseq.infer_latents _ _ ?vae _ _ _))) =>
        pose proof (vaeseq_infer_latents_outcome sample calc_kl vae
                      contexts observed g') as Hout
    end.
    destruct (concatenated _) as [features|e];
      [destruct Hout as (l & d & m & E) | rename Hout into E];
      rewrite E in Hin; cbn [snd] in Hin; rewrite emitted_app in Hin.
    + apply sweep_trace_cores in Hin.
      cbn [vaeseq._e_core vaeseq._f_core] in Hin.
      rewrite !Hname in Hin. destruct Hin; discriminate.
    + destruct Hin as [Hin | [Hin | []]]; discriminate.
Qed.

Lemma init_submodules_wires_the_model_witness :
  (forall h name, core_name (Scenario.make_rnn h name) = name)
  /\ forall contexts observed g',
       ~ In (Call (Core "d_core"))
           (emitted g'
              (snd (vaeseq.infer_latents Demo.sample Demo.calc_kl
                      (vaeseq._init_submodules Scenario.make_rnn
                         Scenario.latent_decoder "latent_prior"
                         Demo.small_hparams
                         (map Demo.encode) Demo.decoder3)
                      contexts observed g'))).
Proof.
  assert (H : forall h name, core_name (Scenario.make_rnn h name) = name)
    by reflexivity.
  split; [exact H|].
  apply (proj2 (@init_submodules_wires_the_model
                  nat nat nat nat (list (list nat)) (list (list nat))
                  (list (list nat)) Demo.nat_scalar Demo.sample Demo.calc_kl
                  Scenario.make_rnn Scenario.latent_decoder "latent_prior"
                  Demo.small_hparams (map Demo.encode) Demo.decoder3 H)).
Defined.

Example init_submodules_runs :
  vae_seq._init_submodules Scenario.make_rnn Scenario.latent_decoder
    Demo.small_hparams (map Demo.encode) Demo.decoder3
    (mkGraph 0 [])
  = (Ok Demo.old_vae, mkGraph 1 [NewMVN "prior_z" 0])
  /\ vaeseq._init_submodules Scenario.make_rnn Scenario.latent_decoder
       "latent_prior" Demo.small_hparams (map Demo.encode) Demo.decoder3
     = Demo.new_vae.
Proof. split; reflexivity. Qed.

(* ================================================================== *)
(** * The distribution of a step *)

(** X12.  The distribution of one step of [ObsDist] is the observation
    decoder's distribution of the decoder's own parameters for (output
    of cell "d" on the concatenated context, latent).  Package
    [vaeseq] hands the caller's name on to the decoder; package
    [vae_seq] has no name to hand on. *)
Theorem ObsDist_dist_of_step
    (R St DParams ODist : Type) (HR : Scalar R)
    (context : Nest (list (list R))) (latent : list (list R))
    (features : list (list R)) (d_state : St) (g : Graph) :
  concatenated context = Ok features ->
  (forall self : vae_seq.ObsDist R St DParams ODist,
      exists params d_state' g',
        vae_seq.ObsDist_build self (context, latent) d_state g
        = (Ok (params, d_state'), g')
        /\ vae_seq.ObsDist_dist self params
           = dec_dist (vae_seq.od_obs_decoder self)
               (dec_call (vae_seq.od_obs_decoder self)
                  (fst (core_step (vae_seq.od_d_core self) features d_state),
                   latent))
               None)
  /\ (forall (self : vaeseq.ObsDist R St DParams ODist)
             (name : option string),
      exists params d_state' g',
        vaeseq.ObsDist_build self (context, latent) d_state g
        = (Ok (params, d_state'), g')
        /\ vaeseq.ObsDist_dist self params name
           = dec_dist (vaeseq.od_obs_decoder self)
               (dec_call (vaeseq.od_obs_decoder self)
                  (fst (core_step (vaeseq.od_d_core self) features d_state),
                   latent))
               name).
Proof.
  intros Hctx. split.
  - intros [hparams d_core obs_decoder].
    pose proof (ObsDist_build_run d_core obs_decoder context latent
                  d_state g) as Hrun.
    rewrite Hctx in Hrun.
    eexists _, _, _. split; [exact Hrun | reflexivity].
  - intros [d_core obs_decoder] name.
    pose proof (ObsDist_build_run d_core obs_decoder context latent
                  d_state g) as Hrun.
    rewrite Hctx in Hrun.
    eexists _, _, _. split; [exact Hrun | reflexivity].
Qed.

Lemma ObsDist_dist_of_step_witness :
  concatenated (Tuple [Leaf [[1]; [2]]; Leaf [[3]; [4]]])
  = Ok [[1; 3]; [2; 4]]
  /\ exists params d_state' g',
       vaeseq.ObsDist_build Scenario.new_obs
         (Tuple [Leaf [[1]; [2]]; Leaf [[3]; [4]]], [[7]; [8]]) 10
         Demo.empty_graph
       = (Ok (params, d_state'), g')
       /\ vaeseq.ObsDist_dist Scenario.new_obs params (Some "x_dist")
          = [[11; 13]; [12; 14]; [7]; [8]].
Proof.
  split; [reflexivity|].
  apply (proj2 (@ObsDist_dist_of_step
                  nat nat (list (list nat)) (list (list nat))
                  Demo.nat_scalar
                  (Tuple [Leaf [[1]; [2]]; Leaf [[3]; [4]]]) [[7]; [8]]
                  [[1; 3]; [2; 4]] 10 Demo.empty_graph eq_refl)
           Scenario.new_obs (Some "x_dist")).
Defined.
